(** * VPLS link options of iproute2: [ip/iplink_vpls.c]

    A shallow embedding of the two callbacks of [vpls_link_util]:
    [vpls_parse_opt], which turns the command-line tokens that follow
    [type vpls] into netlink attributes, and [vpls_print_opt], which renders
    the attributes of a link back into text.

    Integers of the C code are [Z] with their width written out, attribute
    payloads are lists of bytes ([Z] in [0, 255]) in host byte order, the
    token vector [argv] is a list of strings (its length is [argc]) and the
    streams [stderr] and [f] are the text written to them. *)

From Stdlib Require Import ZArith List String Ascii Bool Lia.
Import ListNotations.

Local Open Scope string_scope.
Local Open Scope Z_scope.

(** ** Characters and text *)

Definition nl : string := String "010"%char EmptyString.
Definition dquote : string := String "034"%char EmptyString.

(** ** Decimal numerals

    [fmt_u] is the text that the conversion [%u] of [fprintf] produces for a
    non-negative integer, and the way a number is written as a token. *)

Definition ascii_of_digit (d : Z) : ascii := ascii_of_N (Z.to_N (48 + d)).

Definition digit_of (c : ascii) : option Z :=
  let k := Z.of_N (N_of_ascii c) in
  if (48 <=? k) && (k <=? 57) then Some (k - 48) else None.

Fixpoint fmt_u_aux (fuel : nat) (n : Z) (acc : string) : string :=
  match fuel with
  | O => acc
  | S fuel' =>
      let acc' := String (ascii_of_digit (n mod 10)) acc in
      if n / 10 =? 0 then acc' else fmt_u_aux fuel' (n / 10) acc'
  end.

Definition fmt_u (n : Z) : string :=
  fmt_u_aux (S (Z.to_nat (Z.log2 n))) n EmptyString.

(** ** Numeric arguments: [get_u32], [get_u8], [get_unsigned] *)

(** The digits of a token, most significant first, accumulated as [strtoul]
    does in base ten; [None] at the first character that is not a digit. *)
Fixpoint strtoul10 (s : string) (acc : Z) : option Z :=
  match s with
  | EmptyString => Some acc
  | String c s' =>
      match digit_of c with
      | Some d => strtoul10 s' (acc * 10 + d)
      | None => None
      end
  end.

Definition UINT_MAX : Z := 4294967295.

(** Modelled from the spec: the helpers [get_u32], [get_u8] and
    [get_unsigned] of lib/utils.c are not under src/.  Section 4.1 has them
    "parse as unsigned 32-bit" (resp. 8-bit, unsigned), failing on a
    "non-numeric or out-of-range token"; section 8 speaks of "valid decimal
    strings".  The model reads a non-empty string of decimal digits and
    rejects a value above [max]; [None] stands for the non-zero return value
    and [Some v] for the return value 0 with [v] stored through the pointer.
    The [base] argument, 0 at every call of this file, is not interpreted. *)
Definition get_bounded (max : Z) (arg : string) (base : Z) : option Z :=
  match arg with
  | EmptyString => None
  | _ =>
      match strtoul10 arg 0 with
      | Some res => if res <=? max then Some res else None
      | None => None
      end
  end.

Definition get_u32 : string -> Z -> option Z := get_bounded 4294967295.
Definition get_unsigned : string -> Z -> option Z := get_bounded UINT_MAX.
Definition get_u8 : string -> Z -> option Z := get_bounded 255.

(** Modelled from the spec: the macro [LABEL_MAX_MASK] of include/utils.h is
    not under src/.  Section 3 gives labels 20 bits, 0 to 1,048,575, and
    section 4.1 rejects a label "if any bit above bit 19 is set". *)
Definition LABEL_MAX_MASK : Z := 1048575.

Definition wrap32 (v : Z) : Z := v mod 2 ^ 32.

(** ** Attributes and the message under construction *)

(** Modelled from the spec: the enumeration [IFLA_VPLS_*] of
    linux/if_link.h is not under src/; section 6 lists its members. *)
Inductive ifla_vpls : Type :=
| IFLA_VPLS_ID
| IFLA_VPLS_VLANID
| IFLA_VPLS_OIF
| IFLA_VPLS_TTL
| IFLA_VPLS_IN_LABEL
| IFLA_VPLS_OUT_LABEL
| IFLA_VPLS_NH
| IFLA_VPLS_NH6.

Definition ifla_vpls_eqb (a b : ifla_vpls) : bool :=
  match a, b with
  | IFLA_VPLS_ID, IFLA_VPLS_ID
  | IFLA_VPLS_VLANID, IFLA_VPLS_VLANID
  | IFLA_VPLS_OIF, IFLA_VPLS_OIF
  | IFLA_VPLS_TTL, IFLA_VPLS_TTL
  | IFLA_VPLS_IN_LABEL, IFLA_VPLS_IN_LABEL
  | IFLA_VPLS_OUT_LABEL, IFLA_VPLS_OUT_LABEL
  | IFLA_VPLS_NH, IFLA_VPLS_NH
  | IFLA_VPLS_NH6, IFLA_VPLS_NH6 => true
  | _, _ => false
  end.

(** One attribute: its tag and its payload bytes ([RTA_DATA], of length
    [RTA_PAYLOAD]). *)
Record rtattr : Type := mk_rtattr {
  rta_type : ifla_vpls;
  rta_data : list Z
}.

Definition RTA_PAYLOAD (rta : rtattr) : Z := Z.of_nat (List.length (rta_data rta)).

(** The part of [struct nlmsghdr *n] that this file touches: the attributes
    appended to the message so far, oldest first. *)
Definition nlmsghdr : Type := list rtattr.

(** A 32-bit value as it lies in memory (host byte order, least significant
    byte first) and back. *)
Definition u32_bytes (v : Z) : list Z :=
  [v mod 256; (v / 256) mod 256; (v / 65536) mod 256; (v / 16777216) mod 256].

Definition u32_of_bytes (b0 b1 b2 b3 : Z) : Z :=
  b0 + 256 * b1 + 65536 * b2 + 16777216 * b3.

(** Modelled from the spec: [addattr_l], [addattr32] and [addattr8] of
    lib/libnetlink.c are not under src/.  Section 4.1: "append one encoded
    attribute per recognized keyword"; section 6: "attribute list in
    tag/length/value form, appended to a message buffer".  The bound
    [maxlen] (1024 at every call) is carried as the code passes it; the spec
    gives a full buffer no behaviour and the model appends. *)
Definition addattr_l (n : nlmsghdr) (maxlen : Z) (type : ifla_vpls)
    (data : list Z) (alen : nat) : nlmsghdr :=
  (n ++ [mk_rtattr type (firstn alen data)])%list.

Definition addattr32 (n : nlmsghdr) (maxlen : Z) (type : ifla_vpls) (data : Z)
    : nlmsghdr :=
  addattr_l n maxlen type (u32_bytes data) 4.

Definition addattr8 (n : nlmsghdr) (maxlen : Z) (type : ifla_vpls) (data : Z)
    : nlmsghdr :=
  addattr_l n maxlen type [data mod 256] 1.

(** Modelled from the spec: [rta_getattr_u32] and [rta_getattr_u8] of
    include/libnetlink.h are not under src/.  Section 6: fields "are read
    assuming correct length".  A payload too short for the read gives
    [None]: the read would leave the attribute and the model assigns it no
    value. *)
Definition rta_getattr_u32 (rta : rtattr) : option Z :=
  match rta_data rta with
  | b0 :: b1 :: b2 :: b3 :: _ => Some (u32_of_bytes b0 b1 b2 b3)
  | _ => None
  end.

Definition rta_getattr_u8 (rta : rtattr) : option Z :=
  match rta_data rta with
  | b0 :: _ => Some b0
  | _ => None
  end.

(** ** Addresses *)

(** [struct in6_addr]: sixteen bytes in network order. *)
Definition in6_addr : Type := list Z.

Definition sizeof_in6_addr : nat := 16.

Definition IN6ADDR_ANY_INIT : in6_addr := repeat 0 16.

Definition IN6_IS_ADDR_UNSPECIFIED (a : in6_addr) : bool :=
  forallb (fun b => b =? 0) (firstn sizeof_in6_addr a).

(** Splits a string at its first full stop. *)
Fixpoint split_dot (s : string) : string * option string :=
  match s with
  | EmptyString => (EmptyString, None)
  | String c s' =>
      if Ascii.eqb c "."%char then (EmptyString, Some s')
      else let (h, t) := split_dot s' in (String c h, t)
  end.

(** Modelled from the spec: the IPv4 half of [inet_get_addr] (lib/utils.c,
    over the C library's [inet_pton]) is not under src/.  Section 3 asks for
    a "valid IPv4" address: four decimal numbers 0 to 255 separated by full
    stops, stored as four bytes in network order; the result is the [__u32]
    that holds these bytes. *)
Definition inet_pton4 (src : string) : option Z :=
  let (s0, r0) := split_dot src in
  match r0 with
  | None => None
  | Some r0 =>
      let (s1, r1) := split_dot r0 in
      match r1 with
      | None => None
      | Some r1 =>
          let (s2, r2) := split_dot r1 in
          match r2 with
          | None => None
          | Some r2 =>
              let (s3, r3) := split_dot r2 in
              match r3, get_u8 s0 10, get_u8 s1 10, get_u8 s2 10, get_u8 s3 10 with
              | None, Some b0, Some b1, Some b2, Some b3 =>
                  Some (u32_of_bytes b0 b1 b2 b3)
              | _, _, _, _, _ => None
              end
          end
      end
  end.

(** Modelled from the spec: the IPv4 half of [format_host] (lib/utils.c) is
    not under src/.  Section 4.2 renders "via inet ADDR": the four bytes in
    dotted decimal. *)
Definition inet_ntop4 (a : list Z) : string :=
  match a with
  | b0 :: b1 :: b2 :: b3 :: _ =>
      fmt_u b0 ++ "." ++ fmt_u b1 ++ "." ++ fmt_u b2 ++ "." ++ fmt_u b3
  | _ => EmptyString
  end.

(** ** The system around the program

    What the C library and the kernel answer: the interface table behind
    [if_nametoindex] and [if_indextoname], and the IPv6 text conversions
    behind [inet_get_addr] and [format_host].  They are parameters of the
    model. *)
Record sys : Type := mk_sys {
  if_nametoindex : string -> Z;
  if_indextoname : Z -> option string;
  inet_pton6 : string -> option in6_addr;
  inet_ntop6 : in6_addr -> string
}.

(** Modelled from the spec: [matches] of lib/utils.c is not under src/.
    Section 4.1 lists the "recognized keywords" and rejects "any other
    token": a token matches a keyword when it is that keyword.  The result
    is 0 on a match, as the tests [!matches(...)] of the code expect. *)
Definition matches (cmd pattern : string) : Z :=
  if String.eqb cmd pattern then 0 else -1.

(** [strcmp] of the C library; the code only tests its result against 0. *)
Definition strcmp (a b : string) : Z :=
  if String.eqb a b then 0 else 1.

(** Modelled from the spec: [inet_get_addr] of lib/utils.c is not under
    src/.  Section 4.1: "parse ADDR as IPv4 first; if that fails, parse as
    IPv6.  Store the result".  The result is non-zero on success, as the
    test [!inet_get_addr(...)] of the code expects, together with the two
    destinations [dst] and [dst6] after the call. *)
Definition inet_get_addr (h : sys) (src : string) (dst : Z) (dst6 : in6_addr)
    : Z * Z * in6_addr :=
  match inet_pton4 src with
  | Some a => (1, a, dst6)
  | None =>
      match inet_pton6 h src with
      | Some a6 => (1, dst, a6)
      | None => (0, dst, dst6)
      end
  end.

Inductive family : Type := AF_INET | AF_INET6.

(** Modelled from the spec: [format_host] of lib/utils.c is not under src/.
    Section 4.2 renders the address after "via inet" and "via inet6". *)
Definition format_host (h : sys) (af : family) (len : nat) (addr : list Z)
    : string :=
  match af with
  | AF_INET => inet_ntop4 (firstn len addr)
  | AF_INET6 => inet_ntop6 h (firstn len addr)
  end.

(** ** Streams *)

Definition fprintf (f : string) (text : string) : string := f ++ text.

(** [print_explain] *)
Definition print_explain (f : string) : string :=
  let f := fprintf f ("Usage: ... vpls id ID [ output LABEL ] [ input LABEL ]" ++ nl) in
  let f := fprintf f ("                 [ ttl TTL ] [ via ADDR ][ dev PHYS_DEV ]" ++ nl) in
  let f := fprintf f ("                 [ vlan ID ]" ++ nl) in
  let f := fprintf f nl in
  let f := fprintf f ("Where: ID    := 0-16777215" ++ nl) in
  let f := fprintf f ("       TTL   := { 1..255 | inherit }" ++ nl) in
  let f := fprintf f ("       LABEL := 0-1048575" ++ nl) in
  f.

(** ** The encoder: [vpls_parse_opt] *)

(** How a call of [vpls_parse_opt] ends.

    Modelled from the spec: [invarg] and [incomplete_command] of lib/utils.c
    and the macro [NEXT_ARG] of include/utils.h are not under src/.
    Section 7: an error is "reported immediately to the error stream with
    the offending token and a short reason, parsing aborts, and the caller
    is signaled failure".  [Invarg msg arg] is that report, with the reason
    and the token; [Incomplete_command] is [NEXT_ARG] finding no token after
    a keyword. *)
Inductive outcome : Type :=
| Returned (rc : Z)
| Invarg (msg arg : string)
| Incomplete_command.

(** The outcome, the message [n] and the text written to [stderr] when the
    call ends. *)
Record result : Type := mk_result {
  status : outcome;
  msg : nlmsghdr;
  err : string
}.

(** The [while (argc > 0)] loop either runs out of tokens, leaving the
    locals [via_addr] and [via_addr6] and the message, or ends the call. *)
Inductive loop_exit : Type :=
| Done (via_addr : Z) (via_addr6 : in6_addr) (n : nlmsghdr)
| Stop (r : result).

Definition invarg (message arg : string) (n : nlmsghdr) : loop_exit :=
  Stop (mk_result (Invarg message arg) n EmptyString).

Definition incomplete_command (n : nlmsghdr) : loop_exit :=
  Stop (mk_result Incomplete_command n EmptyString).

Section Encoder.

Variable h : sys.

(** The loop of [vpls_parse_opt].  Each [match rest] is a [NEXT_ARG()]; the
    recursive call is the [argc--, argv++] that ends an iteration.  Of the
    locals only [via_addr] and [via_addr6] are read after the loop. *)
Fixpoint vpls_parse_args (argv : list string) (via_addr : Z)
    (via_addr6 : in6_addr) (n : nlmsghdr) : loop_exit :=
  match argv with
  | [] => Done via_addr via_addr6 n
  | arg :: rest =>
      if matches arg "id" =? 0 then
        match rest with
        | [] => incomplete_command n
        | arg :: rest =>
            match get_u32 arg 0 with
            | None => invarg "invalid id" arg n
            | Some id =>
                vpls_parse_args rest via_addr via_addr6
                  (addattr32 n 1024 IFLA_VPLS_ID id)
            end
        end
      else if matches arg "via" =? 0 then
        match rest with
        | [] => incomplete_command n
        | arg :: rest =>
            let '(rc, via_addr, via_addr6) :=
              inet_get_addr h arg via_addr via_addr6 in
            if rc =? 0 then invarg "invalid address" arg n
            else vpls_parse_args rest via_addr via_addr6 n
        end
      else if matches arg "vlan" =? 0 then
        match rest with
        | [] => incomplete_command n
        | arg :: rest =>
            match get_u8 arg 0 with
            | None => invarg "invalid vlan id" arg n
            | Some vlanid =>
                vpls_parse_args rest via_addr via_addr6
                  (addattr8 n 1024 IFLA_VPLS_VLANID vlanid)
            end
        end
      else if matches arg "dev" =? 0 then
        match rest with
        | [] => incomplete_command n
        | arg :: rest =>
            let link := if_nametoindex h arg in
            if link =? 0 then invarg "invalid device" arg n
            else
              vpls_parse_args rest via_addr via_addr6
                (addattr32 n 1024 IFLA_VPLS_OIF link)
        end
      else if (matches arg "ttl" =? 0) || (matches arg "hoplimit" =? 0) then
        match rest with
        | [] => incomplete_command n
        | arg :: rest =>
            if negb (strcmp arg "inherit" =? 0) then
              match get_unsigned arg 0 with
              | None => invarg "invalid TTL" arg n
              | Some uval =>
                  if uval >? 255 then invarg "TTL must be <= 255" arg n
                  else
                    let ttl := uval mod 256 in
                    vpls_parse_args rest via_addr via_addr6
                      (addattr8 n 1024 IFLA_VPLS_TTL ttl)
              end
            else vpls_parse_args rest via_addr via_addr6 n
        end
      else if matches arg "input" =? 0 then
        match rest with
        | [] => incomplete_command n
        | arg :: rest =>
            match get_u32 arg 0 with
            | None => invarg "invalid input label" arg n
            | Some uval =>
                if negb (Z.land uval (wrap32 (Z.lnot LABEL_MAX_MASK)) =? 0)
                then invarg "invalid input label" arg n
                else
                  let in_label := uval in
                  vpls_parse_args rest via_addr via_addr6
                    (addattr32 n 1024 IFLA_VPLS_IN_LABEL in_label)
            end
        end
      else if matches arg "output" =? 0 then
        match rest with
        | [] => incomplete_command n
        | arg :: rest =>
            match get_u32 arg 0 with
            | None => invarg "invalid output label" arg n
            | Some uval =>
                if negb (Z.land uval (wrap32 (Z.lnot LABEL_MAX_MASK)) =? 0)
                then invarg "invalid output label" arg n
                else
                  let out_label := uval in
                  vpls_parse_args rest via_addr via_addr6
                    (addattr32 n 1024 IFLA_VPLS_OUT_LABEL out_label)
            end
        end
      else if matches arg "help" =? 0 then
        let stderr := print_explain EmptyString in
        Stop (mk_result (Returned (-1)) n stderr)
      else
        let stderr :=
          fprintf EmptyString
            ("vpls: unknown command " ++ dquote ++ arg ++ dquote ++ "?" ++ nl) in
        let stderr := print_explain stderr in
        Stop (mk_result (Returned (-1)) n stderr)
  end.

(** [vpls_parse_opt(lu, argc, argv, n)]; [lu] is not used by the code. *)
Definition vpls_parse_opt (argv : list string) (n : nlmsghdr) : result :=
  let via_addr6 := IN6ADDR_ANY_INIT in
  let via_addr := 0 in
  match vpls_parse_args argv via_addr via_addr6 n with
  | Stop r => r
  | Done via_addr via_addr6 n =>
      let n :=
        if negb (via_addr =? 0) then
          addattr_l n 1024 IFLA_VPLS_NH (u32_bytes via_addr) 4
        else if negb (IN6_IS_ADDR_UNSPECIFIED via_addr6) then
          addattr_l n 1024 IFLA_VPLS_NH6 via_addr6 sizeof_in6_addr
        else n in
      mk_result (Returned 0) n EmptyString
  end.

End Encoder.

(** ** The decoder: [vpls_print_opt] *)

(** The array [tb] indexed by attribute tag: [None] is a null entry. *)
Definition rtattr_table : Type := ifla_vpls -> option rtattr.

(** Modelled from the spec: [parse_rtattr] of lib/libnetlink.c, which fills
    [tb] from the attributes of a message, is not under src/.  Section 6:
    "a tag to payload mapping already parsed out of a raw netlink attribute
    blob".  Each tag is mapped to the first attribute that carries it. *)
Definition parse_rtattr (n : nlmsghdr) : rtattr_table :=
  fun type => find (fun rta => ifla_vpls_eqb (rta_type rta) type) n.

(** [memcpy] of [len] bytes out of a payload; [None] when the payload is
    shorter than that. *)
Definition memcpy (src : list Z) (len : nat) : option (list Z) :=
  if (List.length src <? len)%nat then None else Some (firstn len src).

Notation "x <- e ; k" :=
  (match e with Some x => k | None => None end)
  (at level 60, e at next level, right associativity, only parsing).

Section Decoder.

Variable h : sys.

(** [vpls_print_opt(lu, f, tb)]; [lu] is not used by the code.  The result
    is the stream [f] after the call, or [None] when a read leaves an
    attribute's payload. *)
Definition vpls_print_opt (f : string) (tb : option rtattr_table)
    : option string :=
  match tb with
  | None => Some f
  | Some tb =>
      match tb IFLA_VPLS_ID with
      | None => Some f
      | Some rta =>
          if RTA_PAYLOAD rta <? 4 then Some f
          else
            id <- rta_getattr_u32 rta;
            let f := fprintf f ("id " ++ fmt_u id ++ " ") in
            f <- match tb IFLA_VPLS_IN_LABEL with
                 | Some rta =>
                     val <- rta_getattr_u32 rta;
                     Some (if negb (val =? 0)
                           then fprintf f ("label in " ++ fmt_u val ++ " ")
                           else f)
                 | None => Some f
                 end;
            f <- match tb IFLA_VPLS_OUT_LABEL with
                 | Some rta =>
                     val <- rta_getattr_u32 rta;
                     Some (if negb (val =? 0)
                           then fprintf f ("out " ++ fmt_u val ++ " ")
                           else f)
                 | None => Some f
                 end;
            f <- match tb IFLA_VPLS_VLANID with
                 | Some rta =>
                     vlanid <- rta_getattr_u8 rta;
                     Some (if negb (vlanid =? 0)
                           then fprintf f ("vlan " ++ fmt_u vlanid ++ " ")
                           else f)
                 | None => Some f
                 end;
            f <- match tb IFLA_VPLS_NH with
                 | Some rta =>
                     addr <- rta_getattr_u32 rta;
                     Some (if negb (addr =? 0)
                           then fprintf f ("via inet "
                                  ++ format_host h AF_INET 4 (u32_bytes addr)
                                  ++ " ")
                           else f)
                 | None =>
                     match tb IFLA_VPLS_NH6 with
                     | Some rta =>
                         addr <- memcpy (rta_data rta) sizeof_in6_addr;
                         Some (if negb (IN6_IS_ADDR_UNSPECIFIED addr)
                               then fprintf f ("via inet6 "
                                      ++ format_host h AF_INET6 sizeof_in6_addr addr
                                      ++ " ")
                               else f)
                     | None => Some f
                     end
                 end;
            f <- match tb IFLA_VPLS_OIF with
                 | Some rta =>
                     link <- rta_getattr_u32 rta;
                     match if_indextoname h link with
                     | Some name => Some (fprintf f ("dev " ++ name ++ " "))
                     | None => Some (fprintf f ("dev " ++ fmt_u link ++ " "))
                     end
                 | None => Some f
                 end;
            f <- match tb IFLA_VPLS_TTL with
                 | Some rta =>
                     ttl <- rta_getattr_u8 rta;
                     Some (if negb (ttl =? 0)
                           then fprintf f ("ttl " ++ fmt_u ttl ++ " ")
                           else f)
                 | None => Some f
                 end;
            Some f
      end
  end.

End Decoder.

(** ** Tables used in the statements *)


(** [tb] with the entry of [type] pointing to [rta]. *)
Definition tb_set (type : ifla_vpls) (rta : rtattr) (tb : rtattr_table)
    : rtattr_table :=
  fun t => if ifla_vpls_eqb t type then Some rta else tb t.

Definition tb_empty : rtattr_table := fun _ => None.

(** A system with the loopback interface only, whose IPv6 conversions know
    the loopback address only. *)
Definition in6addr_loopback : in6_addr := (repeat 0 15 ++ [1])%list.

Definition sys_lo : sys :=
  mk_sys (fun name => if String.eqb name "lo" then 1 else 0)
         (fun index => if index =? 1 then Some "lo" else None)
         (fun src => if String.eqb src "::1" then Some in6addr_loopback else None)
         (fun a => "::1").

(** Sample tables: an ID of 7 with a VLAN_ID of 0 and the loopback
    interface as OIF; an ID of 7 with an NH of 0.0.0.0 and an NH6 of ::1; an
    ID of 7 with an NH of 10.0.0.1 and an NH6 of ::1. *)
Definition tb_vlan0_oif : rtattr_table :=
  tb_set IFLA_VPLS_OIF (mk_rtattr IFLA_VPLS_OIF [1; 0; 0; 0])
    (tb_set IFLA_VPLS_VLANID (mk_rtattr IFLA_VPLS_VLANID [0])
       (tb_set IFLA_VPLS_ID (mk_rtattr IFLA_VPLS_ID [7; 0; 0; 0]) tb_empty)).


Definition tb_nh_nh6 : rtattr_table :=
  tb_set IFLA_VPLS_NH6 (mk_rtattr IFLA_VPLS_NH6 in6addr_loopback)
    (tb_set IFLA_VPLS_NH (mk_rtattr IFLA_VPLS_NH [10; 0; 0; 1])
       (tb_set IFLA_VPLS_ID (mk_rtattr IFLA_VPLS_ID [7; 0; 0; 0]) tb_empty)).

(** ** Predicates used in the statements *)

(** What the loop appends: no next-hop attribute, and an ID attribute only
    for a token that matches [id]. *)
Definition loop_tag (argv : list string) (rta : rtattr) : Prop :=
  rta_type rta <> IFLA_VPLS_NH /\ rta_type rta <> IFLA_VPLS_NH6 /\
  (rta_type rta = IFLA_VPLS_ID -> Exists (fun t => matches t "id" = 0) argv).


(** The keywords that the loop of [vpls_parse_opt] tests for, in the order
    of its tests. *)
Definition keywords : list string :=
  ["id"; "via"; "vlan"; "dev"; "ttl"; "hoplimit"; "input"; "output"; "help"].

(** A token that no test of the loop matches. *)
Definition unknown_command (arg : string) : Prop :=
  Forall (fun k => matches arg k <> 0) keywords.

(** ** The help callback *)

(** [vpls_print_help(lu, argc, argv, f)]; [lu] and [argc] are not used by
    the code, nor is [argv]. *)
Definition vpls_print_help (argv : list string) (f : string) : string :=
  print_explain f.

(** ** More predicates and data used in the statements *)

(** The keywords after which the loop takes a value with [NEXT_ARG()]. *)
Definition value_keywords : list string :=
  ["id"; "via"; "vlan"; "dev"; "ttl"; "hoplimit"; "input"; "output"].

(** What a run of the loop leaves in the message. *)
Definition exit_msg (e : loop_exit) : nlmsghdr :=
  match e with
  | Done _ _ m => m
  | Stop r => msg r
  end.

(** A run of the loop on the empty message, put behind a message [n]. *)
Definition frame (n : nlmsghdr) (e : loop_exit) : loop_exit :=
  match e with
  | Done a a6 m => Done a a6 (n ++ m)%list
  | Stop r => Stop (mk_result (status r) (n ++ msg r)%list (err r))
  end.

(** A command line with every option that takes a value. *)
Definition all_options (V W T I O b0 b1 b2 b3 : Z) (name : string)
    : list string :=
  ["id"; fmt_u V; "vlan"; fmt_u W; "ttl"; fmt_u T; "input"; fmt_u I;
   "output"; fmt_u O; "via"; inet_ntop4 [b0; b1; b2; b3]; "dev"; name].

(** The bytes that [vpls_print_opt] reads from an entry, by tag: a 32-bit
    value, a byte for VLAN_ID and TTL, a [struct in6_addr] for NH6.  They
    are also the bytes that [vpls_parse_opt] writes for the tag. *)
Definition read_size (type : ifla_vpls) : nat :=
  match type with
  | IFLA_VPLS_VLANID | IFLA_VPLS_TTL => 1
  | IFLA_VPLS_NH6 => 16
  | _ => 4
  end.

(** Every entry of [tb] but the ID, whose length the decoder tests itself,
    holds the bytes that the decoder reads from it. *)
Definition tb_well_sized (tb : rtattr_table) : Prop :=
  forall type rta,
    type <> IFLA_VPLS_ID -> tb type = Some rta ->
    (read_size type <= List.length (rta_data rta))%nat.

(** An attribute whose payload has the size of its tag. *)
Definition attr_sized (rta : rtattr) : Prop :=
  List.length (rta_data rta) = read_size (rta_type rta).

(** The IPv6 conversion of the system fills a whole [struct in6_addr]. *)
Definition inet_pton6_sized (h : sys) : Prop :=
  forall src a, inet_pton6 h src = Some a -> List.length a = 16%nat.

(** * Properties *)

(** *** Text *)

Lemma append_assoc (a b c : string) : (a ++ b) ++ c = a ++ (b ++ c).
Proof.
  induction a as [|ch a IH]; simpl; [reflexivity | now rewrite IH].
Qed.

Lemma append_nil_r (a : string) : a ++ EmptyString = a.
Proof.
  induction a as [|ch a IH]; simpl; [reflexivity | now rewrite IH].
Qed.

(** *** Reading back what [%u] wrote *)

Lemma digit_of_ascii_of_digit (d : Z) :
  0 <= d <= 9 -> digit_of (ascii_of_digit d) = Some d.
Proof.
  intros H.
  assert (E : d = 0 \/ d = 1 \/ d = 2 \/ d = 3 \/ d = 4 \/
              d = 5 \/ d = 6 \/ d = 7 \/ d = 8 \/ d = 9) by lia.
  repeat (destruct E as [E|E]; [subst d; reflexivity|]).
  subst d; reflexivity.
Qed.

Lemma strtoul10_fmt_u_aux (fuel : nat) :
  forall n acc, 0 <= n < 2 ^ Z.of_nat fuel ->
    strtoul10 (fmt_u_aux fuel n acc) 0 = strtoul10 acc n.
Proof.
  induction fuel as [|fuel IH]; intros n acc Hn.
  - simpl in *. assert (n = 0) by lia. now subst n.
  - cbn [fmt_u_aux].
    assert (Hd : 0 <= n mod 10 <= 9) by (pose proof (Z.mod_pos_bound n 10); lia).
    assert (Hq : n = 10 * (n / 10) + n mod 10) by (apply Z.div_mod; lia).
    destruct (Z.eqb_spec (n / 10) 0) as [E|E].
    + cbn [strtoul10]. rewrite digit_of_ascii_of_digit by exact Hd.
      f_equal. lia.
    + rewrite IH.
      * cbn [strtoul10]. rewrite digit_of_ascii_of_digit by exact Hd.
        f_equal. lia.
      * rewrite Nat2Z.inj_succ, Z.pow_succ_r in Hn by lia.
        split; [apply Z.div_pos; lia|].
        apply Z.div_lt_upper_bound; lia.
Qed.

Lemma fmt_u_aux_nonempty (fuel : nat) :
  forall n acc, exists c s, fmt_u_aux (S fuel) n acc = String c s.
Proof.
  induction fuel as [|fuel IH]; intros n acc.
  - cbn [fmt_u_aux]. destruct (n / 10 =? 0); eauto.
  - change (fmt_u_aux (S (S fuel)) n acc)
      with (let acc' := String (ascii_of_digit (n mod 10)) acc in
            if n / 10 =? 0 then acc' else fmt_u_aux (S fuel) (n / 10) acc').
    cbv zeta. destruct (n / 10 =? 0); eauto.
Qed.

Lemma log2_fuel (n : Z) : 0 <= n -> n < 2 ^ Z.of_nat (S (Z.to_nat (Z.log2 n))).
Proof.
  intros Hn. rewrite Nat2Z.inj_succ, Z2Nat.id by apply Z.log2_nonneg.
  destruct (Z.eq_dec n 0) as [->|Hz]; [reflexivity|].
  apply Z.log2_spec. lia.
Qed.

Lemma strtoul10_fmt_u (n : Z) : 0 <= n -> strtoul10 (fmt_u n) 0 = Some n.
Proof.
  intros Hn. unfold fmt_u. rewrite strtoul10_fmt_u_aux; [reflexivity|].
  split; [exact Hn | now apply log2_fuel].
Qed.

Lemma get_bounded_fmt_u (max n base : Z) :
  0 <= n ->
  get_bounded max (fmt_u n) base = if n <=? max then Some n else None.
Proof.
  intros Hn. unfold get_bounded.
  rewrite strtoul10_fmt_u by exact Hn.
  unfold fmt_u.
  destruct (fmt_u_aux_nonempty (Z.to_nat (Z.log2 n)) n EmptyString) as (c & s & ->).
  reflexivity.
Qed.

(** *** Bytes of a 32-bit value *)

Lemma rta_getattr_u32_bytes (type : ifla_vpls) (v : Z) :
  0 <= v < 2 ^ 32 ->
  rta_getattr_u32 (mk_rtattr type (u32_bytes v)) = Some v.
Proof.
  intros Hv. unfold rta_getattr_u32, u32_bytes, u32_of_bytes. cbn [rta_data].
  f_equal.
  change (2 ^ 32) with 4294967296 in Hv.
  Z.to_euclidean_division_equations. lia.
Qed.

(** *** The label mask *)

Lemma label_mask_high_bits (v : Z) :
  0 <= v < 2 ^ 32 ->
  Z.land v (wrap32 (Z.lnot LABEL_MAX_MASK)) = v / 2 ^ 20 * 2 ^ 20.
Proof.
  intros Hv. unfold wrap32.
  change LABEL_MAX_MASK with (Z.ones 20).
  rewrite <- (Z.land_ones (Z.lnot (Z.ones 20)) 32) by lia.
  rewrite (Z.land_comm (Z.lnot (Z.ones 20))), Z.land_assoc.
  rewrite (Z.land_ones v 32) by lia.
  rewrite Z.mod_small by lia.
  rewrite <- Z.ldiff_land, Z.ldiff_ones_r by lia.
  rewrite Z.shiftr_div_pow2, Z.shiftl_mul_pow2 by lia.
  reflexivity.
Qed.

Lemma label_mask_fits (v : Z) :
  0 <= v < 2 ^ 32 ->
  (Z.land v (wrap32 (Z.lnot LABEL_MAX_MASK)) =? 0) = (v <=? 1048575).
Proof.
  intros Hv. rewrite label_mask_high_bits by exact Hv.
  destruct (Z.leb_spec v 1048575) as [Hle|Hgt].
  - rewrite Z.div_small by lia. reflexivity.
  - apply Z.eqb_neq.
    assert (1 <= v / 2 ^ 20) by (apply Z.div_le_lower_bound; lia).
    lia.
Qed.

(** *** The loop of the encoder *)

Lemma list_pair_ind (A : Type) (P : list A -> Prop) :
  P [] -> (forall x, P [x]) -> (forall x y l, P l -> P (x :: y :: l)) ->
  forall l, P l.
Proof.
  intros Hnil Hone Hstep.
  assert (H : forall l, P l /\ forall x, P (x :: l)).
  { induction l as [|y l [IHl IHc]]; split; auto. }
  intros l. apply H.
Qed.

Ltac loop_cases H :=
  cbn [vpls_parse_args] in H;
  repeat match type of H with
    | context [if ?c then _ else _] => destruct c eqn:?
    | context [match ?e with Some _ => _ | None => _ end] => destruct e eqn:?
    | context [inet_get_addr ?h ?s ?a ?b] =>
        destruct (inet_get_addr h s a b) as [[? ?] ?] eqn:?
    end;
  unfold invarg, incomplete_command in H.

Section EncoderFacts.

Variable h : sys.

(** One iteration of the loop on each keyword. *)

Lemma parse_args_id (arg : string) (rest : list string) a a6 n :
  vpls_parse_args h ("id" :: arg :: rest) a a6 n =
  match get_u32 arg 0 with
  | None => invarg "invalid id" arg n
  | Some id => vpls_parse_args h rest a a6 (addattr32 n 1024 IFLA_VPLS_ID id)
  end.
Proof. reflexivity. Qed.

Lemma parse_args_input (arg : string) (rest : list string) a a6 n :
  vpls_parse_args h ("input" :: arg :: rest) a a6 n =
  match get_u32 arg 0 with
  | None => invarg "invalid input label" arg n
  | Some uval =>
      if negb (Z.land uval (wrap32 (Z.lnot LABEL_MAX_MASK)) =? 0)
      then invarg "invalid input label" arg n
      else vpls_parse_args h rest a a6 (addattr32 n 1024 IFLA_VPLS_IN_LABEL uval)
  end.
Proof. reflexivity. Qed.

Lemma parse_args_output (arg : string) (rest : list string) a a6 n :
  vpls_parse_args h ("output" :: arg :: rest) a a6 n =
  match get_u32 arg 0 with
  | None => invarg "invalid output label" arg n
  | Some uval =>
      if negb (Z.land uval (wrap32 (Z.lnot LABEL_MAX_MASK)) =? 0)
      then invarg "invalid output label" arg n
      else vpls_parse_args h rest a a6 (addattr32 n 1024 IFLA_VPLS_OUT_LABEL uval)
  end.
Proof. reflexivity. Qed.

Lemma parse_args_ttl_hoplimit (rest : list string) a a6 n :
  vpls_parse_args h ("hoplimit" :: rest) a a6 n =
  vpls_parse_args h ("ttl" :: rest) a a6 n.
Proof. reflexivity. Qed.

(** A call that returns 0 went through the whole loop. *)
Lemma parse_args_stop (argv : list string) :
  forall a a6 n r,
    vpls_parse_args h argv a a6 n = Stop r -> status r <> Returned 0.
Proof.
  induction argv as [| x | x y rest IH] using list_pair_ind;
    intros a a6 n r H.
  - discriminate H.
  - loop_cases H; injection H as <-; discriminate.
  - loop_cases H;
      try (injection H as <-; discriminate);
      eapply IH; eassumption.
Qed.

Lemma loop_tag_weaken (x y : string) (rest : list string) (body : list rtattr) :
  Forall (loop_tag rest) body -> Forall (loop_tag (x :: y :: rest)) body.
Proof.
  apply Forall_impl. intros rta (H1 & H2 & H3).
  repeat split; auto.
Qed.

Lemma parse_args_done (argv : list string) :
  forall a a6 n a' a6' n',
    vpls_parse_args h argv a a6 n = Done a' a6' n' ->
    exists body, n' = (n ++ body)%list /\ Forall (loop_tag argv) body.
Proof.
  induction argv as [| x | x y rest IH] using list_pair_ind;
    intros a a6 n a' a6' n' H.
  - injection H as <- <- <-. exists []. split; [now rewrite app_nil_r | constructor].
  - loop_cases H; discriminate H.
  - loop_cases H; try discriminate H;
      apply IH in H; destruct H as (body & -> & Hb);
      apply (loop_tag_weaken x y) in Hb;
      unfold addattr32, addattr8, addattr_l; cbn [firstn u32_bytes];
      rewrite <- ?app_assoc; cbn [app];
      try (eexists; split; [reflexivity | exact Hb]);
      (eexists; split; [reflexivity|]);
      (constructor; [|exact Hb]);
      (repeat split; cbn [rta_type]; try discriminate);
      intros _; apply Exists_cons_hd; now apply Z.eqb_eq.
Qed.

End EncoderFacts.

(** ** The encoder on single options *)

Lemma id_accepts_any_u32 (h : sys) (n : nlmsghdr) (V : Z) :
  0 <= V <= 4294967295 ->
  vpls_parse_opt h ["id"; fmt_u V] n =
    mk_result (Returned 0) (n ++ [mk_rtattr IFLA_VPLS_ID (u32_bytes V)])%list
      EmptyString
  /\ rta_getattr_u32 (mk_rtattr IFLA_VPLS_ID (u32_bytes V)) = Some V.
Proof.
  intros HV. split.
  - unfold vpls_parse_opt. rewrite parse_args_id.
    unfold get_u32. rewrite get_bounded_fmt_u by lia.
    destruct (Z.leb_spec V 4294967295) as [_|?]; [reflexivity | lia].
  - apply rta_getattr_u32_bytes. change (2 ^ 32) with 4294967296. lia.
Qed.

Lemma id_rejects_beyond_u32 (h : sys) (n : nlmsghdr) (V : Z) :
  4294967295 < V ->
  vpls_parse_opt h ["id"; fmt_u V] n =
    mk_result (Invarg "invalid id" (fmt_u V)) n EmptyString.
Proof.
  intros HV. unfold vpls_parse_opt. rewrite parse_args_id.
  unfold get_u32. rewrite get_bounded_fmt_u by lia.
  destruct (Z.leb_spec V 4294967295) as [?|_]; [lia | reflexivity].
Qed.

Lemma id_rejects_non_numeric (h : sys) (n : nlmsghdr) :
  vpls_parse_opt h ["id"; "abc"] n =
    mk_result (Invarg "invalid id" "abc") n EmptyString.
Proof. reflexivity. Qed.

(** C1 (the code departs from the claim).  The claim has [id V] fail with
    "invalid id" for every V above 16777215, the bound that the usage text
    of [print_explain] gives ("ID := 0-16777215").  The code only asks
    [get_u32] for a 32-bit value: [id 16777216] returns 0 and appends one
    ID attribute, whose value reads back as 16777216. *)
Theorem C1_id_16777216_is_accepted (h : sys) (n : nlmsghdr) :
  vpls_parse_opt h ["id"; "16777216"] n =
    mk_result (Returned 0) (n ++ [mk_rtattr IFLA_VPLS_ID [0; 0; 0; 1]])%list
      EmptyString
  /\ rta_getattr_u32 (mk_rtattr IFLA_VPLS_ID [0; 0; 0; 1]) = Some 16777216.
Proof. split; reflexivity. Qed.

(** C2.  Encoding [id 100 vlan 5 ttl 10 input 20 output 30 via 10.0.0.1]
    into an empty message returns 0, and decoding the table of the
    attributes it produced writes exactly
    [id 100 label in 20 out 30 vlan 5 via inet 10.0.0.1 ttl 10 ], with the
    trailing space and without a [dev] field. *)
Theorem C2_round_trip (h : sys) :
  let r := vpls_parse_opt h
             ["id"; "100"; "vlan"; "5"; "ttl"; "10"; "input"; "20";
              "output"; "30"; "via"; "10.0.0.1"] [] in
  status r = Returned 0 /\
  vpls_print_opt h EmptyString (Some (parse_rtattr (msg r))) =
    Some "id 100 label in 20 out 30 vlan 5 via inet 10.0.0.1 ttl 10 ".
Proof. split; reflexivity. Qed.

(** C4.  [ttl inherit] returns 0 and appends nothing; [ttl 64] appends
    exactly one TTL attribute, of value 64; [ttl 256] is refused with
    "TTL must be <= 255" and [ttl abc] with the different message
    "invalid TTL"; [hoplimit] in place of [ttl] gives the same result
    whatever follows. *)
Theorem C4_ttl (h : sys) (n : nlmsghdr) :
  vpls_parse_opt h ["ttl"; "inherit"] n = mk_result (Returned 0) n EmptyString
  /\ vpls_parse_opt h ["ttl"; "64"] n =
       mk_result (Returned 0) (n ++ [mk_rtattr IFLA_VPLS_TTL [64]])%list
         EmptyString
  /\ rta_getattr_u8 (mk_rtattr IFLA_VPLS_TTL [64]) = Some 64
  /\ vpls_parse_opt h ["ttl"; "256"] n =
       mk_result (Invarg "TTL must be <= 255" "256") n EmptyString
  /\ vpls_parse_opt h ["ttl"; "abc"] n =
       mk_result (Invarg "invalid TTL" "abc") n EmptyString
  /\ Invarg "TTL must be <= 255" "256" <> Invarg "invalid TTL" "256"
  /\ forall rest,
       vpls_parse_opt h ("hoplimit" :: rest) n =
       vpls_parse_opt h ("ttl" :: rest) n.
Proof.
  repeat split; try reflexivity.
  discriminate.
Qed.

(** C5.  For every L from 0 to 1048575, [input L] appends exactly one
    IN_LABEL attribute and [output L] exactly one OUT_LABEL attribute, each
    of value L; for every L from 1048576 on, that is with a bit above bit 19
    set, the call ends with "invalid input label", resp. "invalid output
    label", and the message is left as it was: nothing is truncated. *)
Theorem C5_labels (h : sys) (n : nlmsghdr) (L : Z) :
  (0 <= L <= 1048575 ->
     vpls_parse_opt h ["input"; fmt_u L] n =
       mk_result (Returned 0)
         (n ++ [mk_rtattr IFLA_VPLS_IN_LABEL (u32_bytes L)])%list EmptyString
     /\ vpls_parse_opt h ["output"; fmt_u L] n =
       mk_result (Returned 0)
         (n ++ [mk_rtattr IFLA_VPLS_OUT_LABEL (u32_bytes L)])%list EmptyString
     /\ rta_getattr_u32 (mk_rtattr IFLA_VPLS_IN_LABEL (u32_bytes L)) = Some L
     /\ rta_getattr_u32 (mk_rtattr IFLA_VPLS_OUT_LABEL (u32_bytes L)) = Some L)
  /\ (1048576 <= L ->
     vpls_parse_opt h ["input"; fmt_u L] n =
       mk_result (Invarg "invalid input label" (fmt_u L)) n EmptyString
     /\ vpls_parse_opt h ["output"; fmt_u L] n =
       mk_result (Invarg "invalid output label" (fmt_u L)) n EmptyString).
Proof.
  assert (P32 : 2 ^ 32 = 4294967296) by reflexivity.
  split; intros HL.
  - assert (Hfit : (Z.land L (wrap32 (Z.lnot LABEL_MAX_MASK)) =? 0) = true).
    { rewrite label_mask_fits by lia. apply Z.leb_le. lia. }
    repeat split; try (apply rta_getattr_u32_bytes; lia);
      unfold vpls_parse_opt;
      rewrite ?parse_args_input, ?parse_args_output;
      unfold get_u32; rewrite get_bounded_fmt_u by lia;
      (destruct (Z.leb_spec L 4294967295) as [_|?]; [|lia]);
      rewrite Hfit; reflexivity.
  - split; unfold vpls_parse_opt;
      rewrite ?parse_args_input, ?parse_args_output;
      unfold get_u32; rewrite get_bounded_fmt_u by lia;
      (destruct (Z.leb_spec L 4294967295) as [?|_]; [|reflexivity]);
      rewrite label_mask_fits by lia;
      (destruct (Z.leb_spec L 1048575) as [?|_]; [lia | reflexivity]).
Qed.

Lemma C5_labels_witness :
  (0 <= 1048575 <= 1048575 /\
   vpls_parse_opt sys_lo ["input"; "1048575"] [] =
     mk_result (Returned 0) [mk_rtattr IFLA_VPLS_IN_LABEL [255; 255; 15; 0]]
       EmptyString)
  /\ (1048576 <= 1048576 /\
      vpls_parse_opt sys_lo ["output"; "1048576"] [] =
        mk_result (Invarg "invalid output label" "1048576") [] EmptyString).
Proof.
  split; (split; [lia|]).
  - apply (proj1 (C5_labels sys_lo [] 1048575)). lia.
  - apply (proj2 (C5_labels sys_lo [] 1048576)). lia.
Defined.

(** ** The encoder on whole command lines *)

(** Tokens after a prefix that the loop went through are handled from the
    state that the prefix left. *)
Lemma parse_args_app (h : sys) (pre suf : list string) :
  forall a a6 n a' a6' n',
    vpls_parse_args h pre a a6 n = Done a' a6' n' ->
    vpls_parse_args h (pre ++ suf)%list a a6 n = vpls_parse_args h suf a' a6' n'.
Proof.
  induction pre as [| x | x y rest IH] using list_pair_ind;
    intros a a6 n a' a6' n' H.
  - injection H as <- <- <-. reflexivity.
  - loop_cases H; discriminate H.
  - cbn [app vpls_parse_args].
    loop_cases H; try discriminate H; now apply IH.
Qed.

(** *** IPv4 addresses in text and in memory *)

Lemma split_dot_digits (s : string) :
  forall acc v rest,
    strtoul10 s acc = Some v ->
    split_dot (s ++ "." ++ rest) = (s, Some rest) /\ split_dot s = (s, None).
Proof.
  induction s as [|c s IH]; intros acc v rest H.
  - split; reflexivity.
  - cbn [strtoul10] in H.
    destruct (digit_of c) as [d|] eqn:Hd; [|discriminate H].
    destruct (IH _ _ rest H) as [IH1 IH2].
    assert (Hc : Ascii.eqb c "."%char = false).
    { destruct (Ascii.eqb_spec c "."%char) as [->|]; [discriminate Hd | reflexivity]. }
    cbn [append split_dot]. rewrite Hc.
    change (String "." rest) with ("." ++ rest).
    rewrite IH1, IH2. split; reflexivity.
Qed.

Lemma inet_pton4_ntop4 (b0 b1 b2 b3 : Z) :
  0 <= b0 <= 255 -> 0 <= b1 <= 255 -> 0 <= b2 <= 255 -> 0 <= b3 <= 255 ->
  inet_pton4 (inet_ntop4 [b0; b1; b2; b3]) = Some (u32_of_bytes b0 b1 b2 b3).
Proof.
  intros H0 H1 H2 H3. unfold inet_pton4, inet_ntop4.
  pose proof (strtoul10_fmt_u b0 ltac:(lia)) as D0.
  pose proof (strtoul10_fmt_u b1 ltac:(lia)) as D1.
  pose proof (strtoul10_fmt_u b2 ltac:(lia)) as D2.
  pose proof (strtoul10_fmt_u b3 ltac:(lia)) as D3.
  rewrite (proj1 (split_dot_digits _ _ _ _ D0)).
  rewrite (proj1 (split_dot_digits _ _ _ _ D1)).
  rewrite (proj1 (split_dot_digits _ _ _ _ D2)).
  rewrite (proj2 (split_dot_digits _ _ _ EmptyString D3)).
  unfold get_u8. rewrite !get_bounded_fmt_u by lia.
  repeat match goal with
         | |- context [?b <=? 255] =>
             destruct (Z.leb_spec b 255); [|lia]
         end.
  reflexivity.
Qed.

Lemma u32_bytes_of_bytes (b0 b1 b2 b3 : Z) :
  0 <= b0 <= 255 -> 0 <= b1 <= 255 -> 0 <= b2 <= 255 -> 0 <= b3 <= 255 ->
  u32_bytes (u32_of_bytes b0 b1 b2 b3) = [b0; b1; b2; b3].
Proof.
  intros H0 H1 H2 H3. unfold u32_bytes, u32_of_bytes.
  repeat f_equal; Z.to_euclidean_division_equations; lia.
Qed.

(** A single [via] with an IPv4 address in dotted decimal. *)
Lemma via_ipv4_raw_bytes (h : sys) (n : nlmsghdr) (b0 b1 b2 b3 : Z) :
  0 <= b0 <= 255 -> 0 <= b1 <= 255 -> 0 <= b2 <= 255 -> 0 <= b3 <= 255 ->
  vpls_parse_opt h ["via"; inet_ntop4 [b0; b1; b2; b3]] n =
    mk_result (Returned 0)
      (if (b0 =? 0) && (b1 =? 0) && (b2 =? 0) && (b3 =? 0) then n
       else (n ++ [mk_rtattr IFLA_VPLS_NH [b0; b1; b2; b3]])%list)
      EmptyString.
Proof.
  intros H0 H1 H2 H3. unfold vpls_parse_opt.
  cbn [vpls_parse_args]. change (matches "via" "id" =? 0) with false.
  change (matches "via" "via" =? 0) with true. cbv beta iota.
  unfold inet_get_addr. rewrite inet_pton4_ntop4 by assumption.
  cbv beta iota. change (1 =? 0) with false. cbv beta iota.
  unfold addattr_l. rewrite u32_bytes_of_bytes by assumption.
  cbn [firstn].
  destruct (Z.eqb_spec (u32_of_bytes b0 b1 b2 b3) 0) as [E|E];
    unfold u32_of_bytes in E; cbn [negb];
    destruct (Z.eqb_spec b0 0), (Z.eqb_spec b1 0), (Z.eqb_spec b2 0),
      (Z.eqb_spec b3 0); cbn [andb]; try reflexivity; lia.
Qed.

(** The shape of a call that returns 0: the loop ran to its end, appended
    [body], and the call then appended [tail] for the next hop. *)
Lemma vpls_parse_opt_shape (h : sys) (argv : list string) (n : nlmsghdr) :
  status (vpls_parse_opt h argv n) = Returned 0 ->
  exists via_addr via_addr6 body tail,
    vpls_parse_args h argv 0 IN6ADDR_ANY_INIT n =
      Done via_addr via_addr6 (n ++ body)%list
    /\ Forall (loop_tag argv) body
    /\ msg (vpls_parse_opt h argv n) = (n ++ body ++ tail)%list
    /\ (via_addr <> 0 ->
        tail = [mk_rtattr IFLA_VPLS_NH (u32_bytes via_addr)])
    /\ (via_addr = 0 -> IN6_IS_ADDR_UNSPECIFIED via_addr6 = false ->
        tail = [mk_rtattr IFLA_VPLS_NH6 (firstn 16 via_addr6)])
    /\ (via_addr = 0 -> IN6_IS_ADDR_UNSPECIFIED via_addr6 = true ->
        tail = []).
Proof.
  intros Hret. unfold vpls_parse_opt in *.
  destruct (vpls_parse_args h argv 0 IN6ADDR_ANY_INIT n)
    as [via_addr via_addr6 n'|r] eqn:Hloop.
  - apply parse_args_done in Hloop as Hbody.
    destruct Hbody as (body & -> & Hbody).
    cbn [msg]. unfold addattr_l.
    destruct (Z.eqb_spec via_addr 0) as [Hz|Hnz]; cbn [negb].
    + destruct (IN6_IS_ADDR_UNSPECIFIED via_addr6) eqn:Hu; cbn [negb].
      * exists via_addr, via_addr6, body, [].
        repeat split; try congruence. now rewrite app_nil_r.
      * exists via_addr, via_addr6, body,
          [mk_rtattr IFLA_VPLS_NH6 (firstn 16 via_addr6)].
        repeat split; try congruence. now rewrite app_assoc.
    + exists via_addr, via_addr6, body,
        [mk_rtattr IFLA_VPLS_NH (u32_bytes via_addr)].
      repeat split; try congruence. now rewrite app_assoc.
  - apply parse_args_stop in Hloop. contradiction.
Qed.

(** C3.  A call that returns 0 went through all the tokens; the loop
    appended attributes [body], none of them NH or NH6, and left the
    captured next hops [via_addr] and [via_addr6]; after [body] the call
    appended [tail]: one NH attribute with the four bytes of [via_addr] when
    [via_addr] is not zero, else one NH6 attribute with the sixteen bytes of
    [via_addr6] when that is not the unspecified address, else nothing.  So
    at most one of NH and NH6 is in what the call appended, and it is last.
    A single [via ADDR] captures the IPv4 reading of ADDR, or else its IPv6
    reading; [via A.B.C.D] appends one NH attribute with the bytes A, B, C,
    D unless all four are zero; [via 0.0.0.0] returns 0 and appends
    nothing. *)
Theorem C3_next_hop_emission (h : sys) (n : nlmsghdr) :
  (forall argv,
     status (vpls_parse_opt h argv n) = Returned 0 ->
     exists via_addr via_addr6 body tail,
       vpls_parse_args h argv 0 IN6ADDR_ANY_INIT n =
         Done via_addr via_addr6 (n ++ body)%list
       /\ Forall (fun rta => rta_type rta <> IFLA_VPLS_NH /\
                             rta_type rta <> IFLA_VPLS_NH6) body
       /\ msg (vpls_parse_opt h argv n) = (n ++ body ++ tail)%list
       /\ (via_addr <> 0 ->
           tail = [mk_rtattr IFLA_VPLS_NH (u32_bytes via_addr)])
       /\ (via_addr = 0 -> IN6_IS_ADDR_UNSPECIFIED via_addr6 = false ->
           tail = [mk_rtattr IFLA_VPLS_NH6 (firstn 16 via_addr6)])
       /\ (via_addr = 0 -> IN6_IS_ADDR_UNSPECIFIED via_addr6 = true ->
           tail = []))
  /\ (forall addr,
        vpls_parse_args h ["via"; addr] 0 IN6ADDR_ANY_INIT n =
        match inet_pton4 addr, inet_pton6 h addr with
        | Some a, _ => Done a IN6ADDR_ANY_INIT n
        | None, Some a6 => Done 0 a6 n
        | None, None => invarg "invalid address" addr n
        end)
  /\ (forall b0 b1 b2 b3,
        0 <= b0 <= 255 -> 0 <= b1 <= 255 -> 0 <= b2 <= 255 ->
        0 <= b3 <= 255 ->
        vpls_parse_opt h ["via"; inet_ntop4 [b0; b1; b2; b3]] n =
          mk_result (Returned 0)
            (if (b0 =? 0) && (b1 =? 0) && (b2 =? 0) && (b3 =? 0) then n
             else (n ++ [mk_rtattr IFLA_VPLS_NH [b0; b1; b2; b3]])%list)
            EmptyString)
  /\ vpls_parse_opt h ["via"; "0.0.0.0"] n =
       mk_result (Returned 0) n EmptyString.
Proof.
  split; [|split; [|split; [apply via_ipv4_raw_bytes | reflexivity]]].
  - intros argv Hret.
    destruct (vpls_parse_opt_shape h argv n Hret)
      as (via_addr & via_addr6 & body & tail & Hloop & Hbody & Hrest).
    exists via_addr, via_addr6, body, tail.
    split; [exact Hloop | split; [|exact Hrest]].
    eapply Forall_impl; [|exact Hbody]. intros rta (? & ? & _); auto.
  - intros addr. cbn [vpls_parse_args]. unfold inet_get_addr.
    destruct (inet_pton4 addr) as [a|]; [reflexivity|].
    destruct (inet_pton6 h addr) as [a6|]; reflexivity.
Qed.

Lemma C3_next_hop_emission_witness :
  status (vpls_parse_opt sys_lo ["id"; "7"; "via"; "::1"; "via"; "10.0.0.1"] [])
    = Returned 0
  /\ exists via_addr via_addr6 body tail,
       vpls_parse_args sys_lo ["id"; "7"; "via"; "::1"; "via"; "10.0.0.1"]
         0 IN6ADDR_ANY_INIT [] = Done via_addr via_addr6 ([] ++ body)%list
       /\ Forall (fun rta => rta_type rta <> IFLA_VPLS_NH /\
                             rta_type rta <> IFLA_VPLS_NH6) body
       /\ msg (vpls_parse_opt sys_lo
                 ["id"; "7"; "via"; "::1"; "via"; "10.0.0.1"] [])
          = ([] ++ body ++ tail)%list
       /\ (via_addr <> 0 ->
           tail = [mk_rtattr IFLA_VPLS_NH (u32_bytes via_addr)])
       /\ (via_addr = 0 -> IN6_IS_ADDR_UNSPECIFIED via_addr6 = false ->
           tail = [mk_rtattr IFLA_VPLS_NH6 (firstn 16 via_addr6)])
       /\ (via_addr = 0 -> IN6_IS_ADDR_UNSPECIFIED via_addr6 = true ->
           tail = []).
Proof.
  split; [reflexivity|].
  apply (proj1 (C3_next_hop_emission sys_lo [])). reflexivity.
Defined.

Lemma parse_args_help (h : sys) (rest : list string) a a6 n :
  vpls_parse_args h ("help" :: rest) a a6 n =
    Stop (mk_result (Returned (-1)) n (print_explain EmptyString)).
Proof. reflexivity. Qed.

Lemma parse_args_unknown (h : sys) (arg : string) (rest : list string) a a6 n :
  unknown_command arg ->
  vpls_parse_args h (arg :: rest) a a6 n =
    Stop (mk_result (Returned (-1)) n
            (print_explain
               (fprintf EmptyString
                  ("vpls: unknown command " ++ dquote ++ arg ++ dquote
                   ++ "?" ++ nl)))).
Proof.
  unfold unknown_command, keywords. intros Hk.
  repeat match goal with
         | H : Forall _ (_ :: _) |- _ =>
             apply Forall_cons_iff in H; destruct H as [?%Z.eqb_neq H]
         end.
  cbn [vpls_parse_args].
  repeat match goal with
         | E : (?c =? 0) = false |- _ => rewrite E; clear E
         end.
  cbn [orb]. reflexivity.
Qed.

(** C9, the claim as stated, fails: the value that the call returns to its
    caller for [help] is the value it returns for an unknown keyword. *)
Lemma C9_help_not_told_apart :
  ~ (status (vpls_parse_opt sys_lo ["help"] []) <>
     status (vpls_parse_opt sys_lo ["bogus"] [])).
Proof. intros H. apply H. reflexivity. Qed.

(** C9, amended.  After any tokens that the loop went through, the token
    [help] ends the call: the usage text is written to the error stream and
    the call returns -1.  A token that matches no keyword ends the call with
    the same return value -1, after a line naming the unknown command and
    the same usage text.  The message holds what the earlier tokens
    appended; the caller sees the return value -1 in both cases. *)
Theorem C9_help_returns_like_unknown (h : sys) (pre rest : list string)
    (arg : string) (n n' : nlmsghdr) (via_addr : Z) (via_addr6 : in6_addr) :
  vpls_parse_args h pre 0 IN6ADDR_ANY_INIT n = Done via_addr via_addr6 n' ->
  unknown_command arg ->
  vpls_parse_opt h (pre ++ "help" :: rest)%list n =
    mk_result (Returned (-1)) n' (print_explain EmptyString)
  /\ vpls_parse_opt h (pre ++ arg :: rest)%list n =
    mk_result (Returned (-1)) n'
      (print_explain
         (fprintf EmptyString
            ("vpls: unknown command " ++ dquote ++ arg ++ dquote ++ "?" ++ nl)))
  /\ status (vpls_parse_opt h (pre ++ "help" :: rest)%list n) =
     status (vpls_parse_opt h (pre ++ arg :: rest)%list n).
Proof.
  intros Hpre Hunk.
  assert (Hhelp : vpls_parse_opt h (pre ++ "help" :: rest)%list n =
                  mk_result (Returned (-1)) n' (print_explain EmptyString)).
  { unfold vpls_parse_opt.
    now rewrite (parse_args_app h pre _ _ _ _ _ _ _ Hpre), parse_args_help. }
  assert (Hbad : vpls_parse_opt h (pre ++ arg :: rest)%list n =
                 mk_result (Returned (-1)) n'
                   (print_explain
                      (fprintf EmptyString
                         ("vpls: unknown command " ++ dquote ++ arg ++ dquote
                          ++ "?" ++ nl)))).
  { unfold vpls_parse_opt.
    now rewrite (parse_args_app h pre _ _ _ _ _ _ _ Hpre),
      parse_args_unknown by exact Hunk. }
  rewrite Hhelp, Hbad. repeat split.
Qed.

Lemma C9_help_returns_like_unknown_witness :
  vpls_parse_args sys_lo ["vlan"; "5"] 0 IN6ADDR_ANY_INIT [] =
    Done 0 IN6ADDR_ANY_INIT [mk_rtattr IFLA_VPLS_VLANID [5]]
  /\ unknown_command "bogus"
  /\ status (vpls_parse_opt sys_lo ["vlan"; "5"; "help"; "id"] []) =
     status (vpls_parse_opt sys_lo ["vlan"; "5"; "bogus"; "id"] []).
Proof.
  assert (Hunk : unknown_command "bogus").
  { unfold unknown_command, keywords. repeat constructor; discriminate. }
  split; [reflexivity | split; [exact Hunk|]].
  apply (C9_help_returns_like_unknown sys_lo ["vlan"; "5"] ["id"] "bogus" []
           [mk_rtattr IFLA_VPLS_VLANID [5]] 0 IN6ADDR_ANY_INIT);
    [reflexivity | exact Hunk].
Defined.

(** C10.  The encoder does not ask for an ID: on no token at all the call
    returns 0 and leaves the message as it was; and whenever the loop runs
    through all the tokens, none of them being refused, and none of them
    matches [id], the call returns 0 and none of the attributes that it
    appended is an ID attribute. *)
Theorem C10_id_not_enforced (h : sys) (n : nlmsghdr) :
  vpls_parse_opt h [] n = mk_result (Returned 0) n EmptyString
  /\ forall argv via_addr via_addr6 n',
       Forall (fun t => matches t "id" <> 0) argv ->
       vpls_parse_args h argv 0 IN6ADDR_ANY_INIT n =
         Done via_addr via_addr6 n' ->
       status (vpls_parse_opt h argv n) = Returned 0
       /\ exists emitted,
            msg (vpls_parse_opt h argv n) = (n ++ emitted)%list /\
            Forall (fun rta => rta_type rta <> IFLA_VPLS_ID) emitted.
Proof.
  split; [reflexivity|].
  intros argv via_addr0 via_addr60 n' Hnoid Hloop.
  assert (Hret : status (vpls_parse_opt h argv n) = Returned 0).
  { unfold vpls_parse_opt. rewrite Hloop. reflexivity. }
  split; [exact Hret|].
  destruct (vpls_parse_opt_shape h argv n Hret)
    as (via_addr & via_addr6 & body & tail & _ & Hbody & Hmsg & H4 & H6 & H0).
  exists (body ++ tail)%list. split; [exact Hmsg|].
  apply Forall_app. split.
  - eapply Forall_impl; [|exact Hbody]. intros rta (_ & _ & Hid) E.
    apply Hid in E. apply Exists_exists in E. destruct E as (t & Hin & Ht).
    rewrite Forall_forall in Hnoid. exact (Hnoid t Hin Ht).
  - destruct (Z.eq_dec via_addr 0) as [Hz|Hnz].
    + destruct (IN6_IS_ADDR_UNSPECIFIED via_addr6) eqn:Hu.
      * rewrite (H0 Hz eq_refl). constructor.
      * rewrite (H6 Hz eq_refl). repeat constructor. discriminate.
    + rewrite (H4 Hnz). repeat constructor. discriminate.
Qed.

Lemma C10_id_not_enforced_witness :
  Forall (fun t => matches t "id" <> 0)
    ["vlan"; "5"; "dev"; "lo"; "via"; "::1"]
  /\ vpls_parse_args sys_lo ["vlan"; "5"; "dev"; "lo"; "via"; "::1"]
       0 IN6ADDR_ANY_INIT [] =
     Done 0 in6addr_loopback
       [mk_rtattr IFLA_VPLS_VLANID [5]; mk_rtattr IFLA_VPLS_OIF [1; 0; 0; 0]]
  /\ status (vpls_parse_opt sys_lo
               ["vlan"; "5"; "dev"; "lo"; "via"; "::1"] []) = Returned 0
  /\ exists emitted,
       msg (vpls_parse_opt sys_lo
              ["vlan"; "5"; "dev"; "lo"; "via"; "::1"] []) =
         ([] ++ emitted)%list /\
       Forall (fun rta => rta_type rta <> IFLA_VPLS_ID) emitted.
Proof.
  assert (Hno : Forall (fun t => matches t "id" <> 0)
                  ["vlan"; "5"; "dev"; "lo"; "via"; "::1"])
    by (repeat constructor; discriminate).
  split; [exact Hno | split; [reflexivity|]].
  exact (proj2 (C10_id_not_enforced sys_lo [])
           ["vlan"; "5"; "dev"; "lo"; "via"; "::1"] 0 in6addr_loopback
           [mk_rtattr IFLA_VPLS_VLANID [5];
            mk_rtattr IFLA_VPLS_OIF [1; 0; 0; 0]]
           Hno eq_refl).
Defined.

(** ** The decoder *)

Ltac string_assoc :=
  repeat (rewrite ?append_assoc, ?append_nil_r; cbn [append]); reflexivity.

(** What [B] adds after [A], for [B] built from [A] by appending. *)
Ltac suffix_of A B :=
  lazymatch B with
  | A => constr:(EmptyString)
  | (?B' ++ ?t) => let s := suffix_of A B' in constr:(s ++ t)
  end.


(** C6.  When [tb] has no ID entry, or an ID entry whose payload is shorter
    than four bytes, [vpls_print_opt] writes nothing, whatever the other
    entries are. *)
Theorem C6_no_id_no_output (h : sys) (f : string) (tb : rtattr_table) :
  tb IFLA_VPLS_ID = None \/
  (exists rta, tb IFLA_VPLS_ID = Some rta /\ RTA_PAYLOAD rta < 4) ->
  vpls_print_opt h f (Some tb) = Some f.
Proof.
  intros [Hnone | (rta & Hsome & Hshort)]; unfold vpls_print_opt.
  - now rewrite Hnone.
  - rewrite Hsome.
    destruct (Z.ltb_spec (RTA_PAYLOAD rta) 4) as [_|?]; [reflexivity | lia].
Qed.

Lemma C6_no_id_no_output_witness :
  (tb_set IFLA_VPLS_VLANID (mk_rtattr IFLA_VPLS_VLANID [5])
     (tb_set IFLA_VPLS_ID (mk_rtattr IFLA_VPLS_ID [1; 0; 0]) tb_empty)
     IFLA_VPLS_ID = None \/
   exists rta,
     tb_set IFLA_VPLS_VLANID (mk_rtattr IFLA_VPLS_VLANID [5])
       (tb_set IFLA_VPLS_ID (mk_rtattr IFLA_VPLS_ID [1; 0; 0]) tb_empty)
       IFLA_VPLS_ID = Some rta /\ RTA_PAYLOAD rta < 4)
  /\ vpls_print_opt sys_lo EmptyString
       (Some (tb_set IFLA_VPLS_VLANID (mk_rtattr IFLA_VPLS_VLANID [5])
                (tb_set IFLA_VPLS_ID (mk_rtattr IFLA_VPLS_ID [1; 0; 0])
                   tb_empty))) = Some EmptyString.
Proof.
  assert (Hshort :
    tb_set IFLA_VPLS_VLANID (mk_rtattr IFLA_VPLS_VLANID [5])
      (tb_set IFLA_VPLS_ID (mk_rtattr IFLA_VPLS_ID [1; 0; 0]) tb_empty)
      IFLA_VPLS_ID = None \/
    exists rta,
      tb_set IFLA_VPLS_VLANID (mk_rtattr IFLA_VPLS_VLANID [5])
        (tb_set IFLA_VPLS_ID (mk_rtattr IFLA_VPLS_ID [1; 0; 0]) tb_empty)
        IFLA_VPLS_ID = Some rta /\ RTA_PAYLOAD rta < 4).
  { right. eexists. split; [reflexivity | reflexivity]. }
  split; [exact Hshort|].
  exact (C6_no_id_no_output sys_lo EmptyString _ Hshort).
Defined.








(** * Further properties of the encoder, the decoder and the help text *)

Lemma parse_args_vlan (h : sys) (arg : string) (rest : list string) a a6 n :
  vpls_parse_args h ("vlan" :: arg :: rest) a a6 n =
  match get_u8 arg 0 with
  | None => invarg "invalid vlan id" arg n
  | Some vlanid =>
      vpls_parse_args h rest a a6 (addattr8 n 1024 IFLA_VPLS_VLANID vlanid)
  end.
Proof. reflexivity. Qed.

Lemma parse_args_ttl (h : sys) (arg : string) (rest : list string) a a6 n :
  vpls_parse_args h ("ttl" :: arg :: rest) a a6 n =
  if negb (strcmp arg "inherit" =? 0) then
    match get_unsigned arg 0 with
    | None => invarg "invalid TTL" arg n
    | Some uval =>
        if uval >? 255 then invarg "TTL must be <= 255" arg n
        else vpls_parse_args h rest a a6
               (addattr8 n 1024 IFLA_VPLS_TTL (uval mod 256))
    end
  else vpls_parse_args h rest a a6 n.
Proof. reflexivity. Qed.

Lemma fmt_u_not_inherit (T : Z) :
  0 <= T -> negb (strcmp (fmt_u T) "inherit" =? 0) = true.
Proof.
  intros HT. unfold strcmp.
  destruct (String.eqb_spec (fmt_u T) "inherit") as [E|_]; [|reflexivity].
  pose proof (strtoul10_fmt_u T HT) as D. rewrite E in D. discriminate D.
Qed.

(** X1.  For every W from 0 to 255, [vlan W] appends exactly one VLAN_ID
    attribute, of value W; for every W from 256 on the call ends with
    "invalid vlan id" and the message is left as it was. *)
Theorem X1_vlan (h : sys) (n : nlmsghdr) (W : Z) :
  (0 <= W <= 255 ->
     vpls_parse_opt h ["vlan"; fmt_u W] n =
       mk_result (Returned 0) (n ++ [mk_rtattr IFLA_VPLS_VLANID [W]])%list
         EmptyString
     /\ rta_getattr_u8 (mk_rtattr IFLA_VPLS_VLANID [W]) = Some W)
  /\ (256 <= W ->
     vpls_parse_opt h ["vlan"; fmt_u W] n =
       mk_result (Invarg "invalid vlan id" (fmt_u W)) n EmptyString).
Proof.
  split; intros HW.
  - split; [|reflexivity].
    unfold vpls_parse_opt. rewrite parse_args_vlan.
    unfold get_u8. rewrite get_bounded_fmt_u by lia.
    destruct (Z.leb_spec W 255) as [_|?]; [|lia].
    cbn [vpls_parse_args]. unfold addattr8, addattr_l.
    rewrite (Z.mod_small W 256) by lia. reflexivity.
  - unfold vpls_parse_opt. rewrite parse_args_vlan.
    unfold get_u8. rewrite get_bounded_fmt_u by lia.
    destruct (Z.leb_spec W 255) as [?|_]; [lia | reflexivity].
Qed.

(** X2.  For every T from 0 to 255 (0 included), [ttl T] appends exactly
    one TTL attribute of value T; from 256 to 4294967295 the call ends with
    "TTL must be <= 255"; from 4294967296 on it ends with "invalid TTL". *)
Theorem X2_ttl (h : sys) (n : nlmsghdr) (T : Z) :
  (0 <= T <= 255 ->
     vpls_parse_opt h ["ttl"; fmt_u T] n =
       mk_result (Returned 0) (n ++ [mk_rtattr IFLA_VPLS_TTL [T]])%list
         EmptyString)
  /\ (256 <= T <= 4294967295 ->
     vpls_parse_opt h ["ttl"; fmt_u T] n =
       mk_result (Invarg "TTL must be <= 255" (fmt_u T)) n EmptyString)
  /\ (4294967296 <= T ->
     vpls_parse_opt h ["ttl"; fmt_u T] n =
       mk_result (Invarg "invalid TTL" (fmt_u T)) n EmptyString).
Proof.
  repeat split; intros HT;
    unfold vpls_parse_opt; rewrite parse_args_ttl;
    rewrite fmt_u_not_inherit by lia;
    unfold get_unsigned, UINT_MAX; rewrite get_bounded_fmt_u by lia.
  - destruct (Z.leb_spec T 4294967295) as [_|?]; [|lia].
    destruct (Z.gtb_spec T 255) as [?|_]; [lia|].
    cbn [vpls_parse_args]. unfold addattr8, addattr_l.
    rewrite !(Z.mod_small T 256) by lia. reflexivity.
  - destruct (Z.leb_spec T 4294967295) as [_|?]; [|lia].
    destruct (Z.gtb_spec T 255) as [_|?]; [reflexivity | lia].
  - destruct (Z.leb_spec T 4294967295) as [?|_]; [lia | reflexivity].
Qed.

Lemma parse_args_last_keyword (h : sys) (k : string) a a6 n :
  In k value_keywords ->
  vpls_parse_args h [k] a a6 n = incomplete_command n.
Proof.
  unfold value_keywords. cbn [In].
  intros H; repeat (destruct H as [<- | H]; [reflexivity|]); contradiction.
Qed.

(** X3.  After tokens that the loop went through, a keyword that takes a
    value and is the last token ends the call as an incomplete command; the
    message holds what the earlier tokens appended. *)
Theorem X3_keyword_without_value (h : sys) (pre : list string) (k : string)
    (n n' : nlmsghdr) (via_addr : Z) (via_addr6 : in6_addr) :
  vpls_parse_args h pre 0 IN6ADDR_ANY_INIT n = Done via_addr via_addr6 n' ->
  In k value_keywords ->
  vpls_parse_opt h (pre ++ [k])%list n =
    mk_result Incomplete_command n' EmptyString.
Proof.
  intros Hpre Hk. unfold vpls_parse_opt.
  rewrite (parse_args_app h pre _ _ _ _ _ _ _ Hpre).
  now rewrite parse_args_last_keyword.
Qed.

Lemma print_explain_app (f : string) :
  print_explain f = f ++ print_explain EmptyString.
Proof. unfold print_explain, fprintf. string_assoc. Qed.

Lemma parse_args_stop_returned (h : sys) (argv : list string) :
  forall a a6 n r rc,
    vpls_parse_args h argv a a6 n = Stop r -> status r = Returned rc ->
    rc = -1 /\ exists line, err r = line ++ print_explain EmptyString.
Proof.
  induction argv as [| x | x y rest IH] using list_pair_ind;
    intros a a6 n r rc H Hrc.
  - discriminate H.
  - loop_cases H; injection H as <-; cbn [status err] in *;
      try discriminate Hrc; injection Hrc as <-;
      (split; [reflexivity|]);
      [exists EmptyString; reflexivity
      | eexists; apply print_explain_app].
  - loop_cases H;
      try (eapply IH; eassumption);
      injection H as <-; cbn [status err] in *;
      try discriminate Hrc; injection Hrc as <-;
      (split; [reflexivity|]);
      [exists EmptyString; reflexivity
      | eexists; apply print_explain_app].
Qed.

(** X4.  When [vpls_parse_opt] returns, it returns 0 or -1: with 0 it has
    written nothing to the error stream, with -1 what it has written ends
    with the usage text. *)
Theorem X4_return_values (h : sys) (argv : list string) (n : nlmsghdr)
    (rc : Z) :
  status (vpls_parse_opt h argv n) = Returned rc ->
  (rc = 0 /\ err (vpls_parse_opt h argv n) = EmptyString)
  \/ (rc = -1 /\
      exists line,
        err (vpls_parse_opt h argv n) = line ++ print_explain EmptyString).
Proof.
  unfold vpls_parse_opt.
  destruct (vpls_parse_args h argv 0 IN6ADDR_ANY_INIT n) as [a a6 n'|r] eqn:E.
  - cbn [status err]. intros H. injection H as <-. left. split; reflexivity.
  - intros H. right. eapply parse_args_stop_returned; eassumption.
Qed.

Lemma frame_frame (n m : nlmsghdr) (e : loop_exit) :
  frame n (frame m e) = frame (n ++ m)%list e.
Proof.
  destruct e as [a a6 k|r]; cbn [frame status msg err];
    now rewrite app_assoc.
Qed.

Ltac goal_cases :=
  repeat match goal with
    | |- context [if ?c then _ else _] => destruct c eqn:?
    | |- context [match get_bounded ?m ?x ?b with _ => _ end] =>
        destruct (get_bounded m x b) eqn:?
    | |- context [inet_get_addr ?h ?s ?a ?b] =>
        destruct (inet_get_addr h s a b) as [[? ?] ?] eqn:?
    end.

Lemma parse_args_frame (h : sys) (argv : list string) :
  forall a a6 n,
    vpls_parse_args h argv a a6 n = frame n (vpls_parse_args h argv a a6 []).
Proof.
  induction argv as [| x | x y rest IH] using list_pair_ind; intros a a6 n.
  - cbn [vpls_parse_args frame]. now rewrite app_nil_r.
  - cbn [vpls_parse_args]. unfold get_u32, get_u8, get_unsigned.
    goal_cases;
      unfold incomplete_command; cbn [frame status msg err];
      now rewrite app_nil_r.
  - cbn [vpls_parse_args]. unfold get_u32, get_u8, get_unsigned.
    goal_cases;
      unfold invarg; cbn [frame status msg err]; rewrite ?app_nil_r;
      try reflexivity;
      try apply IH;
      match goal with
      | |- vpls_parse_args h rest ?a ?a6 ?m =
           frame _ (vpls_parse_args h rest ?a ?a6 ?m0) =>
          rewrite (IH a a6 m), (IH a a6 m0), frame_frame
      end;
      unfold addattr32, addattr8, addattr_l; cbn [app]; reflexivity.
Qed.

(** X5.  [vpls_parse_opt] only appends to the message: whatever the
    outcome, the message it leaves is the message it was given followed by
    what it appended, and the outcome does not depend on the message it was
    given. *)
Theorem X5_message_is_extended (h : sys) (argv : list string) (n : nlmsghdr) :
  status (vpls_parse_opt h argv n) = status (vpls_parse_opt h argv [])
  /\ exists emitted, msg (vpls_parse_opt h argv n) = (n ++ emitted)%list.
Proof.
  unfold vpls_parse_opt. rewrite (parse_args_frame h argv _ _ n).
  destruct (vpls_parse_args h argv 0 IN6ADDR_ANY_INIT []) as [a a6 m|r];
    cbn [frame status msg err]; [|split; [reflexivity | eauto]].
  split; [reflexivity|]. unfold addattr_l.
  destruct (negb (a =? 0)); [rewrite <- app_assoc; eauto|].
  destruct (negb (IN6_IS_ADDR_UNSPECIFIED a6)); [rewrite <- app_assoc; eauto|].
  eauto.
Qed.

(** *** Tokens and attributes are counted in pairs *)

Lemma parse_args_count (h : sys) (argv : list string) :
  forall a a6 n a' a6' m,
    vpls_parse_args h argv a a6 n = Done a' a6' m ->
    exists k : nat,
      List.length argv = (2 * k)%nat
      /\ (List.length m <= List.length n + k)%nat
      /\ (List.length m = List.length n + k -> a' = a /\ a6' = a6)%nat.
Proof.
  induction argv as [| x | x y rest IH] using list_pair_ind;
    intros a a6 n a' a6' m H.
  - injection H as <- <- <-. exists 0%nat. repeat split; cbn; lia.
  - loop_cases H; discriminate H.
  - loop_cases H; try discriminate H;
      apply IH in H; destruct H as (k & Hlen & Hle & Heq);
      exists (S k);
      unfold addattr32, addattr8, addattr_l in *;
      rewrite ?length_app in *; cbn [List.length] in *;
      (split; [lia|]); (split; [lia|]);
      intros E; first [apply Heq; lia | exfalso; lia].
Qed.

(** X6.  A call that returns 0 had an even number of tokens, 2k, and
    appended at most k attributes. *)
Theorem X6_attributes_come_in_pairs (h : sys) (argv : list string)
    (n : nlmsghdr) :
  status (vpls_parse_opt h argv n) = Returned 0 ->
  exists k : nat,
    List.length argv = (2 * k)%nat
    /\ (List.length (msg (vpls_parse_opt h argv n)) <= List.length n + k)%nat.
Proof.
  unfold vpls_parse_opt.
  destruct (vpls_parse_args h argv 0 IN6ADDR_ANY_INIT n) as [a a6 m|r] eqn:E.
  - intros _. apply parse_args_count in E.
    destruct E as (k & Hlen & Hle & Heq).
    exists k. split; [exact Hlen|]. cbn [msg]. unfold addattr_l.
    destruct (Nat.eq_dec (List.length m) (List.length n + k)) as [Hfull|Hless].
    + destruct (Heq Hfull) as [-> ->]. cbn. lia.
    + destruct (negb (a =? 0)); [rewrite length_app; cbn; lia|].
      destruct (negb (IN6_IS_ADDR_UNSPECIFIED a6));
        [rewrite length_app; cbn; lia | lia].
  - intros Hret. apply parse_args_stop in E. contradiction.
Qed.

(** *** IPv4 wins over IPv6 *)

Lemma parse_args_via (h : sys) (arg : string) (rest : list string) a a6 n :
  vpls_parse_args h ("via" :: arg :: rest) a a6 n =
  let '(rc, a', a6') := inet_get_addr h arg a a6 in
  if rc =? 0 then invarg "invalid address" arg n
  else vpls_parse_args h rest a' a6' n.
Proof. reflexivity. Qed.

(** X7.  With one [via] for an IPv4 address and one for an IPv6 address,
    the order of the two does not matter: the IPv4 address is emitted as NH
    unless it is 0.0.0.0, and only then the IPv6 address is emitted as NH6,
    unless it is the unspecified address. *)
Theorem X7_ipv4_wins_in_any_order (h : sys) (n : nlmsghdr) (s6 : string)
    (a6 : in6_addr) (b0 b1 b2 b3 : Z) :
  inet_pton4 s6 = None -> inet_pton6 h s6 = Some a6 ->
  0 <= b0 <= 255 -> 0 <= b1 <= 255 -> 0 <= b2 <= 255 -> 0 <= b3 <= 255 ->
  vpls_parse_opt h ["via"; s6; "via"; inet_ntop4 [b0; b1; b2; b3]] n =
  vpls_parse_opt h ["via"; inet_ntop4 [b0; b1; b2; b3]; "via"; s6] n
  /\ vpls_parse_opt h ["via"; s6; "via"; inet_ntop4 [b0; b1; b2; b3]] n =
     mk_result (Returned 0)
       (if (b0 =? 0) && (b1 =? 0) && (b2 =? 0) && (b3 =? 0) then
          if IN6_IS_ADDR_UNSPECIFIED a6 then n
          else (n ++ [mk_rtattr IFLA_VPLS_NH6 (firstn 16 a6)])%list
        else (n ++ [mk_rtattr IFLA_VPLS_NH [b0; b1; b2; b3]])%list)
       EmptyString.
Proof.
  intros H4 H6 R0 R1 R2 R3.
  assert (E1 : vpls_parse_args h
                 ["via"; s6; "via"; inet_ntop4 [b0; b1; b2; b3]]
                 0 IN6ADDR_ANY_INIT n =
               Done (u32_of_bytes b0 b1 b2 b3) a6 n).
  { rewrite parse_args_via. unfold inet_get_addr at 1. rewrite H4, H6.
    cbv beta iota. change (1 =? 0) with false. cbv beta iota.
    rewrite parse_args_via. unfold inet_get_addr.
    rewrite inet_pton4_ntop4 by assumption. reflexivity. }
  assert (E2 : vpls_parse_args h
                 ["via"; inet_ntop4 [b0; b1; b2; b3]; "via"; s6]
                 0 IN6ADDR_ANY_INIT n =
               Done (u32_of_bytes b0 b1 b2 b3) a6 n).
  { rewrite parse_args_via. unfold inet_get_addr at 1.
    rewrite inet_pton4_ntop4 by assumption.
    cbv beta iota. change (1 =? 0) with false. cbv beta iota.
    rewrite parse_args_via. unfold inet_get_addr.
    rewrite H4, H6. reflexivity. }
  unfold vpls_parse_opt. rewrite E1, E2. split; [reflexivity|].
  unfold addattr_l. rewrite u32_bytes_of_bytes by assumption.
  cbn [firstn].
  destruct (Z.eqb_spec (u32_of_bytes b0 b1 b2 b3) 0) as [E|E];
    unfold u32_of_bytes in E; cbn [negb];
    destruct (Z.eqb_spec b0 0), (Z.eqb_spec b1 0), (Z.eqb_spec b2 0),
      (Z.eqb_spec b3 0); cbn [andb]; try lia;
    destruct (IN6_IS_ADDR_UNSPECIFIED a6); reflexivity.
Qed.

(** *** Encoding, then decoding *)

Lemma parse_args_dev (h : sys) (arg : string) (rest : list string) a a6 n :
  vpls_parse_args h ("dev" :: arg :: rest) a a6 n =
  if if_nametoindex h arg =? 0 then invarg "invalid device" arg n
  else vpls_parse_args h rest a a6
         (addattr32 n 1024 IFLA_VPLS_OIF (if_nametoindex h arg)).
Proof. reflexivity. Qed.

Lemma u32_of_bytes_eq0 (b0 b1 b2 b3 : Z) :
  0 <= b0 <= 255 -> 0 <= b1 <= 255 -> 0 <= b2 <= 255 -> 0 <= b3 <= 255 ->
  (u32_of_bytes b0 b1 b2 b3 =? 0) =
  (b0 =? 0) && (b1 =? 0) && (b2 =? 0) && (b3 =? 0).
Proof.
  intros H0 H1 H2 H3.
  destruct (Z.eqb_spec (u32_of_bytes b0 b1 b2 b3) 0) as [E|E];
    unfold u32_of_bytes in E;
    destruct (Z.eqb_spec b0 0), (Z.eqb_spec b1 0), (Z.eqb_spec b2 0),
      (Z.eqb_spec b3 0); cbn [andb]; try reflexivity; lia.
Qed.

Lemma RTA_PAYLOAD_u32 (type : ifla_vpls) (v : Z) :
  RTA_PAYLOAD (mk_rtattr type (u32_bytes v)) = 4.
Proof. reflexivity. Qed.

Lemma all_options_encoded (h : sys) (V W T I O b0 b1 b2 b3 : Z)
    (name : string) :
  0 <= V <= 4294967295 -> 0 <= W <= 255 -> 0 <= T <= 255 ->
  0 <= I <= 1048575 -> 0 <= O <= 1048575 ->
  0 <= b0 <= 255 -> 0 <= b1 <= 255 -> 0 <= b2 <= 255 -> 0 <= b3 <= 255 ->
  0 < if_nametoindex h name <= 4294967295 ->
  vpls_parse_opt h (all_options V W T I O b0 b1 b2 b3 name) [] =
    mk_result (Returned 0)
      ([mk_rtattr IFLA_VPLS_ID (u32_bytes V);
        mk_rtattr IFLA_VPLS_VLANID [W];
        mk_rtattr IFLA_VPLS_TTL [T];
        mk_rtattr IFLA_VPLS_IN_LABEL (u32_bytes I);
        mk_rtattr IFLA_VPLS_OUT_LABEL (u32_bytes O);
        mk_rtattr IFLA_VPLS_OIF (u32_bytes (if_nametoindex h name))]
       ++ (if u32_of_bytes b0 b1 b2 b3 =? 0 then []
           else [mk_rtattr IFLA_VPLS_NH [b0; b1; b2; b3]]))%list
      EmptyString.
Proof.
  intros HV HW HT HI HO R0 R1 R2 R3 Hdev.
  assert (P32 : 2 ^ 32 = 4294967296) by reflexivity.
  unfold vpls_parse_opt, all_options.
  rewrite parse_args_id. unfold get_u32 at 1.
  rewrite get_bounded_fmt_u by lia.
  destruct (Z.leb_spec V 4294967295) as [_|?]; [|lia].
  rewrite parse_args_vlan. unfold get_u8.
  rewrite get_bounded_fmt_u by lia.
  destruct (Z.leb_spec W 255) as [_|?]; [|lia].
  rewrite parse_args_ttl, fmt_u_not_inherit by lia.
  unfold get_unsigned, UINT_MAX. rewrite get_bounded_fmt_u by lia.
  destruct (Z.leb_spec T 4294967295) as [_|?]; [|lia].
  destruct (Z.gtb_spec T 255) as [?|_]; [lia|].
  rewrite parse_args_input. unfold get_u32 at 1.
  rewrite get_bounded_fmt_u by lia.
  destruct (Z.leb_spec I 4294967295) as [_|?]; [|lia].
  rewrite label_mask_fits by lia.
  destruct (Z.leb_spec I 1048575) as [_|?]; [|lia]. cbn [negb].
  rewrite parse_args_output. unfold get_u32.
  rewrite get_bounded_fmt_u by lia.
  destruct (Z.leb_spec O 4294967295) as [_|?]; [|lia].
  rewrite label_mask_fits by lia.
  destruct (Z.leb_spec O 1048575) as [_|?]; [|lia]. cbn [negb].
  rewrite parse_args_via. unfold inet_get_addr.
  rewrite inet_pton4_ntop4 by assumption.
  cbv beta iota. change (1 =? 0) with false. cbv beta iota.
  rewrite parse_args_dev.
  destruct (Z.eqb_spec (if_nametoindex h name) 0) as [?|_]; [lia|].
  cbn [vpls_parse_args].
  unfold addattr32, addattr8, addattr_l.
  rewrite u32_bytes_of_bytes by assumption.
  rewrite (Z.mod_small W 256), !(Z.mod_small T 256) by lia.
  cbn [app firstn u32_bytes].
  destruct (u32_of_bytes b0 b1 b2 b3 =? 0); reflexivity.
Qed.

(** X8.  Encoding [id V vlan W ttl T input I output O via A.B.C.D dev NAME]
    for values in range and an existing device, then decoding the table of
    the attributes, writes the fields in the order of the decoder, with the
    fields of value zero left out. *)
Theorem X8_round_trip (h : sys) (V W T I O b0 b1 b2 b3 : Z) (name : string) :
  0 <= V <= 4294967295 -> 0 <= W <= 255 -> 0 <= T <= 255 ->
  0 <= I <= 1048575 -> 0 <= O <= 1048575 ->
  0 <= b0 <= 255 -> 0 <= b1 <= 255 -> 0 <= b2 <= 255 -> 0 <= b3 <= 255 ->
  0 < if_nametoindex h name <= 4294967295 ->
  let r := vpls_parse_opt h (all_options V W T I O b0 b1 b2 b3 name) [] in
  status r = Returned 0
  /\ vpls_print_opt h EmptyString (Some (parse_rtattr (msg r))) =
     Some ("id " ++ fmt_u V ++ " "
           ++ (if I =? 0 then EmptyString else "label in " ++ fmt_u I ++ " ")
           ++ (if O =? 0 then EmptyString else "out " ++ fmt_u O ++ " ")
           ++ (if W =? 0 then EmptyString else "vlan " ++ fmt_u W ++ " ")
           ++ (if (b0 =? 0) && (b1 =? 0) && (b2 =? 0) && (b3 =? 0)
               then EmptyString
               else "via inet " ++ inet_ntop4 [b0; b1; b2; b3] ++ " ")
           ++ "dev "
           ++ match if_indextoname h (if_nametoindex h name) with
              | Some ifname => ifname
              | None => fmt_u (if_nametoindex h name)
              end ++ " "
           ++ (if T =? 0 then EmptyString else "ttl " ++ fmt_u T ++ " ")).
Proof.
  intros HV HW HT HI HO R0 R1 R2 R3 Hdev r. subst r.
  assert (P32 : 2 ^ 32 = 4294967296) by reflexivity.
  rewrite all_options_encoded by assumption.
  split; [reflexivity|]. cbn [msg].
  rewrite <- u32_of_bytes_eq0 by assumption.
  unfold vpls_print_opt, parse_rtattr.
  destruct (u32_of_bytes b0 b1 b2 b3 =? 0) eqn:Ez;
    cbn [app find ifla_vpls_eqb rta_type];
    rewrite ?RTA_PAYLOAD_u32; change (4 <? 4) with false; cbv beta iota;
    rewrite !rta_getattr_u32_bytes by lia;
    cbn [rta_getattr_u8 rta_getattr_u32 rta_data]; rewrite ?Ez;
    unfold format_host; rewrite ?u32_bytes_of_bytes by assumption;
    cbn [firstn];
    destruct (I =? 0), (O =? 0), (W =? 0), (T =? 0),
      (if_indextoname h (if_nametoindex h name));
    cbn [negb]; unfold fprintf; string_assoc.
Qed.

(** *** The decoder and its stream *)

Lemma if_append (c : bool) (f t : string) :
  (if c then f ++ t else f) = f ++ (if c then t else EmptyString).
Proof. destruct c; [reflexivity | now rewrite append_nil_r]. Qed.

(** The first text of a chain of appends that starts from the empty
    string. *)
Ltac head_of B :=
  lazymatch B with
  | (EmptyString ++ ?x) => constr:(EmptyString ++ x)
  | (?B' ++ _) => head_of B'
  end.

Ltac read_fields H tb h :=
  repeat match type of H with
    | context [match tb ?t with Some _ => _ | None => _ end] =>
        destruct (tb t) as [?rta|]
    | context [match rta_getattr_u32 ?r with Some _ => _ | None => _ end] =>
        destruct (rta_getattr_u32 r) as [?v|]; [|discriminate H]
    | context [match rta_getattr_u8 ?r with Some _ => _ | None => _ end] =>
        destruct (rta_getattr_u8 r) as [?v|]; [|discriminate H]
    | context [match memcpy ?a ?b with Some _ => _ | None => _ end] =>
        destruct (memcpy a b) as [?addr|]; [|discriminate H]
    | context [match if_indextoname h ?l with Some _ => _ | None => _ end] =>
        destruct (if_indextoname h l) as [?name|]
    end.

(** X9.  [vpls_print_opt] only appends to its stream: what it writes does
    not depend on what the stream held, and with a valid ID it starts with
    [id N ]. *)
Theorem X9_print_opt_appends (h : sys) (f : string) (tb : option rtattr_table)
    (out : string) :
  vpls_print_opt h f tb = Some out ->
  exists written,
    out = f ++ written
    /\ (forall f', vpls_print_opt h f' tb = Some (f' ++ written))
    /\ (forall tbl rta id,
          tb = Some tbl -> tbl IFLA_VPLS_ID = Some rta ->
          4 <= RTA_PAYLOAD rta -> rta_getattr_u32 rta = Some id ->
          exists rest, written = "id " ++ fmt_u id ++ " " ++ rest).
Proof.
  unfold vpls_print_opt. generalize (format_host h). intros host_text H.
  assert (Hnil : forall g : string, Some g = Some (g ++ EmptyString))
    by (intros g; now rewrite append_nil_r).
  destruct tb as [tb|];
    [|injection H as <-; exists EmptyString;
      split; [symmetry; apply append_nil_r | split; [exact Hnil|]];
      intros; discriminate].
  destruct (tb IFLA_VPLS_ID) as [r|] eqn:Eid;
    [|injection H as <-; exists EmptyString;
      split; [symmetry; apply append_nil_r | split; [exact Hnil|]];
      intros ? ? ? [= <-]; congruence].
  destruct (Z.ltb_spec (RTA_PAYLOAD r) 4) as [Hshort|_];
    [injection H as <-; exists EmptyString;
     split; [symmetry; apply append_nil_r | split; [exact Hnil|]];
     intros ? ? ? [= <-] E; rewrite Eid in E; injection E as <-; lia|].
  destruct (rta_getattr_u32 r) as [id|] eqn:Eread; [|discriminate H].
  unfold fprintf in *.
  read_fields H tb h;
    cbv beta iota in H; rewrite ?if_append in H; injection H as <-;
    match goal with
    | |- exists w, ?X = _ /\ _ => let s := suffix_of f X in exists s
    end;
    (split; [string_assoc|]);
    (split; [intros f'; cbv beta iota; rewrite ?if_append; string_assoc|]);
    intros tbl rta' id' [= <-] E2 _ E4;
    rewrite Eid in E2; injection E2 as <-;
    rewrite Eread in E4; injection E4 as <-;
    match goal with
    | |- exists _, ?w = _ =>
        let hd := head_of w in let s := suffix_of hd w in exists s
    end;
    string_assoc.
Qed.

(** *** Payload sizes *)

Lemma rta_getattr_u32_some (rta : rtattr) :
  (4 <= List.length (rta_data rta))%nat ->
  exists v, rta_getattr_u32 rta = Some v.
Proof.
  unfold rta_getattr_u32.
  destruct (rta_data rta) as [|b0 [|b1 [|b2 [|b3 l]]]]; cbn; intros H;
    try lia; eauto.
Qed.

Lemma rta_getattr_u8_some (rta : rtattr) :
  (1 <= List.length (rta_data rta))%nat ->
  exists v, rta_getattr_u8 rta = Some v.
Proof.
  unfold rta_getattr_u8.
  destruct (rta_data rta) as [|b0 l]; cbn; intros H; try lia; eauto.
Qed.

Lemma memcpy_some (src : list Z) (len : nat) :
  (len <= List.length src)%nat -> memcpy src len = Some (firstn len src).
Proof.
  intros H. unfold memcpy.
  destruct (Nat.ltb_spec (List.length src) len); [lia | reflexivity].
Qed.

Lemma print_opt_defined (h : sys) (f : string) (tb : rtattr_table) :
  tb_well_sized tb -> exists out, vpls_print_opt h f (Some tb) = Some out.
Proof.
  intros Hws. unfold vpls_print_opt.
  destruct (tb IFLA_VPLS_ID) as [r|]; [|eauto].
  destruct (Z.ltb_spec (RTA_PAYLOAD r) 4) as [?|Hlen]; [eauto|].
  unfold RTA_PAYLOAD in Hlen.
  destruct (rta_getattr_u32_some r ltac:(lia)) as [id ->].
  repeat match goal with
    | |- context [match tb ?t with Some _ => _ | None => _ end] =>
        let E := fresh "E" in
        destruct (tb t) as [?rta|] eqn:E;
        [apply Hws in E; [cbn [read_size] in E | discriminate] |]
    | |- context [match rta_getattr_u32 ?r with Some _ => _ | None => _ end] =>
        let v := fresh "v" in
        destruct (rta_getattr_u32_some r ltac:(assumption)) as [v ->]
    | |- context [match rta_getattr_u8 ?r with Some _ => _ | None => _ end] =>
        let v := fresh "v" in
        destruct (rta_getattr_u8_some r ltac:(assumption)) as [v ->]
    | |- context [memcpy (rta_data ?r) sizeof_in6_addr] =>
        rewrite (memcpy_some (rta_data r) sizeof_in6_addr) by assumption
    | |- context [match if_indextoname h ?l with Some _ => _ | None => _ end] =>
        destruct (if_indextoname h l)
    end;
    eauto.
Qed.

(** X10.  When every entry of the table but the ID holds the bytes that
    the decoder reads for its tag, no read of [vpls_print_opt] leaves a
    payload: the call has a result. *)
Theorem X10_well_sized_table_is_printed (h : sys) (f : string)
    (tb : rtattr_table) :
  tb_well_sized tb -> exists out, vpls_print_opt h f (Some tb) = Some out.
Proof. apply print_opt_defined. Qed.

Lemma u32_bytes_sized (type : ifla_vpls) (v : Z) :
  read_size type = 4%nat -> attr_sized (mk_rtattr type (firstn 4 (u32_bytes v))).
Proof. intros H. unfold attr_sized. cbn. now rewrite H. Qed.

Lemma inet_get_addr_sized (h : sys) (src : string) (a : Z) (a6 : in6_addr)
    rc a' a6' :
  inet_pton6_sized h -> List.length a6 = 16%nat ->
  inet_get_addr h src a a6 = (rc, a', a6') -> List.length a6' = 16%nat.
Proof.
  intros Hsys Ha6. unfold inet_get_addr.
  destruct (inet_pton4 src); [intros [= _ _ <-]; exact Ha6|].
  destruct (inet_pton6 h src) as [b|] eqn:E; intros [= _ _ <-];
    [eapply Hsys; eassumption | exact Ha6].
Qed.

Lemma parse_args_sized (h : sys) (argv : list string) :
  inet_pton6_sized h ->
  forall a a6 n,
    Forall attr_sized n -> List.length a6 = 16%nat ->
    Forall attr_sized (exit_msg (vpls_parse_args h argv a a6 n))
    /\ forall a' a6' m,
         vpls_parse_args h argv a a6 n = Done a' a6' m ->
         List.length a6' = 16%nat.
Proof.
  intros Hsys.
  induction argv as [| x | x y rest IH] using list_pair_ind;
    intros a a6 n Hn Ha6.
  - cbn. split; [exact Hn|]. intros ? ? ? [= _ <- _]. exact Ha6.
  - cbn [vpls_parse_args]. goal_cases;
      (split; [exact Hn | discriminate]).
  - cbn [vpls_parse_args]. unfold get_u32, get_u8, get_unsigned.
    goal_cases;
      try (split; [exact Hn | discriminate]);
      apply IH;
      try assumption;
      try (eapply inet_get_addr_sized; eassumption);
      unfold addattr32, addattr8, addattr_l;
      (apply Forall_app; split; [exact Hn|]);
      repeat constructor.
Qed.

Lemma parse_opt_sized (h : sys) (argv : list string) (n : nlmsghdr) :
  inet_pton6_sized h -> Forall attr_sized n ->
  Forall attr_sized (msg (vpls_parse_opt h argv n)).
Proof.
  intros Hsys Hn. unfold vpls_parse_opt.
  destruct (parse_args_sized h argv Hsys 0 IN6ADDR_ANY_INIT n Hn eq_refl)
    as [Hmsg Hlen].
  destruct (vpls_parse_args h argv 0 IN6ADDR_ANY_INIT n) as [a a6 m|r];
    cbn [exit_msg msg] in *; [|exact Hmsg].
  specialize (Hlen _ _ _ eq_refl). unfold addattr_l.
  destruct (negb (a =? 0)).
  - apply Forall_app. split; [exact Hmsg|]. repeat constructor.
  - destruct (negb (IN6_IS_ADDR_UNSPECIFIED a6)); [|exact Hmsg].
    apply Forall_app. split; [exact Hmsg|]. repeat constructor.
    unfold attr_sized. cbn [rta_data rta_type read_size].
    unfold sizeof_in6_addr. rewrite length_firstn, Hlen. reflexivity.
Qed.

(** X11.  Every attribute that [vpls_parse_opt] appends, on success or
    before a failure, has the payload size of its tag: four bytes, one byte
    for VLAN_ID and TTL, sixteen for NH6. *)
Theorem X11_encoder_payload_sizes (h : sys) (argv : list string)
    (n : nlmsghdr) :
  inet_pton6_sized h -> Forall attr_sized n ->
  Forall attr_sized (msg (vpls_parse_opt h argv n)).
Proof. apply parse_opt_sized. Qed.

Lemma ifla_vpls_eqb_eq (a b : ifla_vpls) : ifla_vpls_eqb a b = true -> a = b.
Proof. destruct a, b; cbn; intros H; try discriminate H; reflexivity. Qed.

Lemma parse_rtattr_well_sized (n : nlmsghdr) :
  Forall attr_sized n -> tb_well_sized (parse_rtattr n).
Proof.
  intros Hn type rta _ Hfind. unfold parse_rtattr in Hfind.
  apply find_some in Hfind. destruct Hfind as [Hin Htag].
  apply ifla_vpls_eqb_eq in Htag.
  rewrite Forall_forall in Hn. specialize (Hn rta Hin).
  unfold attr_sized in Hn. rewrite Hn, Htag. apply Nat.le_refl.
Qed.

(** X12.  Whatever the tokens, the decoder has a result on the table of
    the attributes that the encoder appended to an empty message. *)
Theorem X12_encoder_output_is_printed (h : sys) (argv : list string)
    (f : string) :
  inet_pton6_sized h ->
  exists out,
    vpls_print_opt h f
      (Some (parse_rtattr (msg (vpls_parse_opt h argv [])))) = Some out.
Proof.
  intros Hsys. apply print_opt_defined, parse_rtattr_well_sized.
  apply parse_opt_sized; [exact Hsys | constructor].
Qed.

(** *** Help *)

(** X13.  [vpls_print_help] appends to its stream exactly the text that
    the [help] option writes to the error stream, whatever its arguments. *)
Theorem X13_print_help_is_usage (h : sys) (argv rest : list string)
    (n : nlmsghdr) (f : string) :
  vpls_print_help argv f =
    f ++ err (vpls_parse_opt h ("help" :: rest) n).
Proof. unfold vpls_print_help. apply print_explain_app. Qed.

(** *** The first failure decides *)

Lemma parse_args_stop_app (h : sys) (pre suf : list string) :
  forall a a6 n r,
    vpls_parse_args h pre a a6 n = Stop r ->
    status r <> Incomplete_command ->
    vpls_parse_args h (pre ++ suf)%list a a6 n = Stop r.
Proof.
  induction pre as [| x | x y rest IH] using list_pair_ind;
    intros a a6 n r H Hr.
  - discriminate H.
  - cbn [app vpls_parse_args].
    loop_cases H; injection H as <-; cbn [status] in Hr;
      try contradiction; reflexivity.
  - cbn [app vpls_parse_args].
    loop_cases H; try (now apply IH); exact H.
Qed.

(** X14.  Once a token list ends in a rejected argument or in the return
    value -1, tokens added after it change nothing: the call ends at the
    first failure, left to right. *)
Theorem X14_first_failure_is_final (h : sys) (pre suf : list string)
    (n : nlmsghdr) :
  status (vpls_parse_opt h pre n) <> Returned 0 ->
  status (vpls_parse_opt h pre n) <> Incomplete_command ->
  vpls_parse_opt h (pre ++ suf)%list n = vpls_parse_opt h pre n.
Proof.
  unfold vpls_parse_opt.
  destruct (vpls_parse_args h pre 0 IN6ADDR_ANY_INIT n) as [a a6 m|r] eqn:E.
  - cbn [status]. intros H. contradiction.
  - intros _ Hr. now rewrite (parse_args_stop_app h pre suf _ _ _ _ E Hr).
Qed.

(** X15.  After tokens that the loop went through, [ttl inherit] and
    [hoplimit inherit] change nothing: the call gives what it gives without
    the two tokens. *)
Theorem X15_ttl_inherit_is_neutral (h : sys) (pre rest : list string)
    (n n' : nlmsghdr) (via_addr : Z) (via_addr6 : in6_addr) :
  vpls_parse_args h pre 0 IN6ADDR_ANY_INIT n = Done via_addr via_addr6 n' ->
  vpls_parse_opt h (pre ++ "ttl" :: "inherit" :: rest)%list n =
  vpls_parse_opt h (pre ++ rest)%list n
  /\ vpls_parse_opt h (pre ++ "hoplimit" :: "inherit" :: rest)%list n =
     vpls_parse_opt h (pre ++ rest)%list n.
Proof.
  intros Hpre. unfold vpls_parse_opt.
  rewrite !(parse_args_app h pre _ _ _ _ _ _ _ Hpre).
  split; reflexivity.
Qed.

(** *** Devices, identifiers, and the loop on a longer command line *)

(** X16.  [dev NAME] ends the call with "invalid device" when the name has
    no interface index, and otherwise appends one OIF attribute whose value
    is the index. *)
Theorem X16_dev (h : sys) (n : nlmsghdr) (name : string) :
  (if_nametoindex h name = 0 ->
     vpls_parse_opt h ["dev"; name] n =
       mk_result (Invarg "invalid device" name) n EmptyString)
  /\ (0 < if_nametoindex h name <= 4294967295 ->
      vpls_parse_opt h ["dev"; name] n =
        mk_result (Returned 0)
          (n ++ [mk_rtattr IFLA_VPLS_OIF (u32_bytes (if_nametoindex h name))])%list
          EmptyString
      /\ rta_getattr_u32
           (mk_rtattr IFLA_VPLS_OIF (u32_bytes (if_nametoindex h name)))
         = Some (if_nametoindex h name)).
Proof.
  split; intros H; unfold vpls_parse_opt; rewrite parse_args_dev.
  - rewrite H. reflexivity.
  - destruct (Z.eqb_spec (if_nametoindex h name) 0) as [?|_]; [lia|].
    split; [reflexivity|].
    apply rta_getattr_u32_bytes. change (2 ^ 32) with 4294967296. lia.
Qed.

Lemma X16_dev_witness :
  (if_nametoindex sys_lo "eth0" = 0 /\
   vpls_parse_opt sys_lo ["dev"; "eth0"] [] =
     mk_result (Invarg "invalid device" "eth0") [] EmptyString)
  /\ (0 < if_nametoindex sys_lo "lo" <= 4294967295 /\
      vpls_parse_opt sys_lo ["dev"; "lo"] [] =
        mk_result (Returned 0) [mk_rtattr IFLA_VPLS_OIF [1; 0; 0; 0]]
          EmptyString).
Proof.
  split.
  - split; [reflexivity|].
    apply (proj1 (X16_dev sys_lo [] "eth0")). reflexivity.
  - assert (Hlo : 0 < if_nametoindex sys_lo "lo" <= 4294967295) by (cbn; lia).
    split; [exact Hlo|].
    apply (proj2 (X16_dev sys_lo [] "lo")). exact Hlo.
Defined.

(** X17.  [id V] appends one ID attribute of value V for every V up to
    4294967295 and ends the call with "invalid id" above that. *)
Theorem X17_id_range (h : sys) (n : nlmsghdr) (V : Z) :
  (0 <= V <= 4294967295 ->
     vpls_parse_opt h ["id"; fmt_u V] n =
       mk_result (Returned 0)
         (n ++ [mk_rtattr IFLA_VPLS_ID (u32_bytes V)])%list EmptyString
     /\ rta_getattr_u32 (mk_rtattr IFLA_VPLS_ID (u32_bytes V)) = Some V)
  /\ (4294967295 < V ->
      vpls_parse_opt h ["id"; fmt_u V] n =
        mk_result (Invarg "invalid id" (fmt_u V)) n EmptyString).
Proof.
  split; [apply id_accepts_any_u32 | apply id_rejects_beyond_u32].
Qed.

Lemma X17_id_range_witness :
  (0 <= 4294967295 <= 4294967295 /\
   vpls_parse_opt sys_lo ["id"; "4294967295"] [] =
     mk_result (Returned 0) [mk_rtattr IFLA_VPLS_ID [255; 255; 255; 255]]
       EmptyString)
  /\ (4294967295 < 4294967296 /\
      vpls_parse_opt sys_lo ["id"; "4294967296"] [] =
        mk_result (Invarg "invalid id" "4294967296") [] EmptyString).
Proof.
  split; (split; [lia|]).
  - apply (proj1 (X17_id_range sys_lo [] 4294967295)). lia.
  - apply (proj2 (X17_id_range sys_lo [] 4294967296)). lia.
Defined.

(** X18.  Tokens after a prefix that the loop went through are handled
    from the locals and the message that the prefix left. *)
Theorem X18_loop_composes (h : sys) (pre suf : list string) (a a' : Z)
    (a6 a6' : in6_addr) (n n' : nlmsghdr) :
  vpls_parse_args h pre a a6 n = Done a' a6' n' ->
  vpls_parse_args h (pre ++ suf)%list a a6 n =
  vpls_parse_args h suf a' a6' n'.
Proof. apply parse_args_app. Qed.

Lemma X18_loop_composes_witness :
  vpls_parse_args sys_lo ["id"; "7"; "via"; "::1"] 0 IN6ADDR_ANY_INIT [] =
    Done 0 in6addr_loopback [mk_rtattr IFLA_VPLS_ID [7; 0; 0; 0]]
  /\ vpls_parse_args sys_lo ["id"; "7"; "via"; "::1"; "id"; "8"]
       0 IN6ADDR_ANY_INIT [] =
     vpls_parse_args sys_lo ["id"; "8"] 0 in6addr_loopback
       [mk_rtattr IFLA_VPLS_ID [7; 0; 0; 0]].
Proof.
  split; [reflexivity|].
  exact (X18_loop_composes sys_lo ["id"; "7"; "via"; "::1"] ["id"; "8"]
           _ _ _ _ _ _ eq_refl).
Defined.

(** *** Instances *)

Lemma X1_vlan_witness :
  (0 <= 255 <= 255 /\
   vpls_parse_opt sys_lo ["vlan"; "255"] [] =
     mk_result (Returned 0) [mk_rtattr IFLA_VPLS_VLANID [255]] EmptyString)
  /\ (256 <= 256 /\
      vpls_parse_opt sys_lo ["vlan"; "256"] [] =
        mk_result (Invarg "invalid vlan id" "256") [] EmptyString).
Proof.
  split; (split; [lia|]).
  - apply (proj1 (X1_vlan sys_lo [] 255)). lia.
  - apply (proj2 (X1_vlan sys_lo [] 256)). lia.
Defined.

Lemma X2_ttl_witness :
  (0 <= 0 <= 255 /\
   vpls_parse_opt sys_lo ["ttl"; "0"] [] =
     mk_result (Returned 0) [mk_rtattr IFLA_VPLS_TTL [0]] EmptyString)
  /\ (256 <= 300 <= 4294967295 /\
      vpls_parse_opt sys_lo ["ttl"; "300"] [] =
        mk_result (Invarg "TTL must be <= 255" "300") [] EmptyString)
  /\ (4294967296 <= 4294967296 /\
      vpls_parse_opt sys_lo ["ttl"; "4294967296"] [] =
        mk_result (Invarg "invalid TTL" "4294967296") [] EmptyString).
Proof.
  destruct (X2_ttl sys_lo [] 0) as (H0 & _ & _).
  destruct (X2_ttl sys_lo [] 300) as (_ & H1 & _).
  destruct (X2_ttl sys_lo [] 4294967296) as (_ & _ & H2).
  split; [split; [lia | apply H0; lia]|].
  split; [split; [lia | apply H1; lia]|].
  split; [lia | apply H2; lia].
Defined.

Lemma X3_keyword_without_value_witness :
  vpls_parse_args sys_lo ["id"; "7"] 0 IN6ADDR_ANY_INIT [] =
    Done 0 IN6ADDR_ANY_INIT [mk_rtattr IFLA_VPLS_ID [7; 0; 0; 0]]
  /\ In "via" value_keywords
  /\ vpls_parse_opt sys_lo ["id"; "7"; "via"] [] =
       mk_result Incomplete_command [mk_rtattr IFLA_VPLS_ID [7; 0; 0; 0]]
         EmptyString.
Proof.
  assert (Hk : In "via" value_keywords) by (cbn; auto).
  split; [reflexivity | split; [exact Hk|]].
  exact (X3_keyword_without_value sys_lo ["id"; "7"] "via" [] _ _ _
           eq_refl Hk).
Defined.

Lemma X4_return_values_witness :
  status (vpls_parse_opt sys_lo ["id"; "7"; "bogus"] []) = Returned (-1)
  /\ ((-1 = 0 /\ err (vpls_parse_opt sys_lo ["id"; "7"; "bogus"] []) = EmptyString)
      \/ (-1 = -1 /\
          exists line,
            err (vpls_parse_opt sys_lo ["id"; "7"; "bogus"] []) =
            line ++ print_explain EmptyString)).
Proof.
  split; [reflexivity|].
  exact (X4_return_values sys_lo ["id"; "7"; "bogus"] [] (-1) eq_refl).
Defined.

Lemma X6_attributes_come_in_pairs_witness :
  status (vpls_parse_opt sys_lo ["via"; "10.0.0.1"; "ttl"; "inherit"] [])
    = Returned 0
  /\ exists k : nat,
       List.length ["via"; "10.0.0.1"; "ttl"; "inherit"] = (2 * k)%nat
       /\ (List.length
             (msg (vpls_parse_opt sys_lo
                     ["via"; "10.0.0.1"; "ttl"; "inherit"] []))
           <= List.length (@nil rtattr) + k)%nat.
Proof.
  split; [reflexivity|].
  exact (X6_attributes_come_in_pairs sys_lo
           ["via"; "10.0.0.1"; "ttl"; "inherit"] [] eq_refl).
Defined.

Lemma X7_ipv4_wins_in_any_order_witness :
  inet_pton4 "::1" = None
  /\ inet_pton6 sys_lo "::1" = Some in6addr_loopback
  /\ vpls_parse_opt sys_lo ["via"; "::1"; "via"; "10.0.0.1"] [] =
     vpls_parse_opt sys_lo ["via"; "10.0.0.1"; "via"; "::1"] []
  /\ vpls_parse_opt sys_lo ["via"; "::1"; "via"; "0.0.0.0"] [] =
     mk_result (Returned 0) [mk_rtattr IFLA_VPLS_NH6 in6addr_loopback]
       EmptyString.
Proof.
  split; [reflexivity | split; [reflexivity|]].
  split.
  - apply (X7_ipv4_wins_in_any_order sys_lo [] "::1" in6addr_loopback
             10 0 0 1); first [reflexivity | lia].
  - apply (X7_ipv4_wins_in_any_order sys_lo [] "::1" in6addr_loopback
             0 0 0 0); first [reflexivity | lia].
Defined.

Lemma X8_round_trip_witness :
  0 < if_nametoindex sys_lo "lo" <= 4294967295
  /\ vpls_print_opt sys_lo EmptyString
       (Some (parse_rtattr
                (msg (vpls_parse_opt sys_lo
                        (all_options 100 0 64 0 30 10 0 0 1 "lo") [])))) =
     Some "id 100 out 30 via inet 10.0.0.1 dev lo ttl 64 ".
Proof.
  assert (Hdev : 0 < if_nametoindex sys_lo "lo" <= 4294967295)
    by (cbn; lia).
  split; [exact Hdev|].
  apply (X8_round_trip sys_lo 100 0 64 0 30 10 0 0 1 "lo"); first [lia | exact Hdev].
Defined.

Lemma X9_print_opt_appends_witness :
  vpls_print_opt sys_lo "7: vpls0 " (Some tb_nh_nh6) =
    Some "7: vpls0 id 7 via inet 10.0.0.1 "
  /\ exists written,
       "7: vpls0 id 7 via inet 10.0.0.1 " = "7: vpls0 " ++ written
       /\ (forall f',
             vpls_print_opt sys_lo f' (Some tb_nh_nh6) = Some (f' ++ written))
       /\ (forall tbl rta id,
             Some tb_nh_nh6 = Some tbl -> tbl IFLA_VPLS_ID = Some rta ->
             4 <= RTA_PAYLOAD rta -> rta_getattr_u32 rta = Some id ->
             exists rest, written = "id " ++ fmt_u id ++ " " ++ rest).
Proof.
  split; [reflexivity|].
  exact (X9_print_opt_appends sys_lo "7: vpls0 " (Some tb_nh_nh6) _ eq_refl).
Defined.

Lemma tb_vlan0_oif_well_sized : tb_well_sized tb_vlan0_oif.
Proof.
  intros type rta Hid. destruct type; cbn; intros [= <-]; cbn; lia.
Qed.

Lemma X10_well_sized_table_is_printed_witness :
  tb_well_sized tb_vlan0_oif
  /\ exists out, vpls_print_opt sys_lo EmptyString (Some tb_vlan0_oif) = Some out.
Proof.
  split; [exact tb_vlan0_oif_well_sized|].
  exact (X10_well_sized_table_is_printed sys_lo EmptyString tb_vlan0_oif
           tb_vlan0_oif_well_sized).
Defined.

Lemma sys_lo_inet_pton6_sized : inet_pton6_sized sys_lo.
Proof.
  intros src a. cbn. destruct (String.eqb src "::1"); intros [= <-].
  reflexivity.
Qed.

Lemma X11_encoder_payload_sizes_witness :
  inet_pton6_sized sys_lo /\ Forall attr_sized (@nil rtattr)
  /\ Forall attr_sized
       (msg (vpls_parse_opt sys_lo ["vlan"; "5"; "via"; "::1"; "id"; "x"] [])).
Proof.
  split; [exact sys_lo_inet_pton6_sized | split; [constructor|]].
  exact (X11_encoder_payload_sizes sys_lo _ [] sys_lo_inet_pton6_sized
           (Forall_nil _)).
Defined.

Lemma X12_encoder_output_is_printed_witness :
  inet_pton6_sized sys_lo
  /\ exists out,
       vpls_print_opt sys_lo EmptyString
         (Some (parse_rtattr
                  (msg (vpls_parse_opt sys_lo ["id"; "7"; "via"; "::1"] []))))
       = Some out.
Proof.
  split; [exact sys_lo_inet_pton6_sized|].
  exact (X12_encoder_output_is_printed sys_lo ["id"; "7"; "via"; "::1"]
           EmptyString sys_lo_inet_pton6_sized).
Defined.

Lemma X14_first_failure_is_final_witness :
  status (vpls_parse_opt sys_lo ["id"; "7"; "ttl"; "256"] []) <> Returned 0
  /\ status (vpls_parse_opt sys_lo ["id"; "7"; "ttl"; "256"] [])
     <> Incomplete_command
  /\ vpls_parse_opt sys_lo ["id"; "7"; "ttl"; "256"; "vlan"; "5"] [] =
     vpls_parse_opt sys_lo ["id"; "7"; "ttl"; "256"] [].
Proof.
  assert (H0 : status (vpls_parse_opt sys_lo ["id"; "7"; "ttl"; "256"] [])
               <> Returned 0) by discriminate.
  assert (H1 : status (vpls_parse_opt sys_lo ["id"; "7"; "ttl"; "256"] [])
               <> Incomplete_command) by discriminate.
  split; [exact H0 | split; [exact H1|]].
  exact (X14_first_failure_is_final sys_lo ["id"; "7"; "ttl"; "256"]
           ["vlan"; "5"] [] H0 H1).
Defined.

Lemma X15_ttl_inherit_is_neutral_witness :
  vpls_parse_args sys_lo ["id"; "7"] 0 IN6ADDR_ANY_INIT [] =
    Done 0 IN6ADDR_ANY_INIT [mk_rtattr IFLA_VPLS_ID [7; 0; 0; 0]]
  /\ vpls_parse_opt sys_lo ["id"; "7"; "ttl"; "inherit"; "vlan"; "5"] [] =
     vpls_parse_opt sys_lo ["id"; "7"; "vlan"; "5"] [].
Proof.
  split; [reflexivity|].
  apply (X15_ttl_inherit_is_neutral sys_lo ["id"; "7"] ["vlan"; "5"] []
           [mk_rtattr IFLA_VPLS_ID [7; 0; 0; 0]] 0 IN6ADDR_ANY_INIT).
  reflexivity.
Defined.
